(** * MulterAzureStorage: a multer storage engine over Azure Blob Storage

    A shallow embedding of [src/MulterAzureStorage.ts].  The adapter is a
    configuration record built once by [constructor]; its two operations,
    [_handleFileAsync] and [_removeFileAsync], are programs over the calls
    they make to the JavaScript runtime ([Date.now], [v4], [extname]) and to
    the Azure SDK.  A program is run against a handler that answers those
    calls; the run records every call together with its answer.

    The first part holds the definitions, the second the lemmas. *)

From Stdlib Require Strings.Byte.
From Stdlib Require Import Strings.Ascii.
From stdpp Require Import base option list strings pretty gmap.

Open Scope Z_scope.

(** * Part I: definitions *)

(** ** JavaScript values *)

(** A thrown value: [new Error(message)], [new TypeError(message)] or
    [new RangeError(message)]. *)
Inductive JsError : Type :=
| Error (message : string)
| TypeError (message : string)
| RangeError (message : string).

(** A JavaScript number, as far as this adapter computes with it: a double
    that is a whole number, one of the two infinities, or [NaN].  Fractions
    are not represented. *)
Inductive number : Type :=
| NaN
| Num (z : Z)
| Infinity (negative : bool).

(** The whole number nearest to [z] that a double holds: [z] itself up to
    [2^53] in magnitude, past which the 53 leading bits are kept and the
    rest is rounded, ties to even. *)
Definition round53 (z : Z) : Z :=
  let a := Z.abs z in
  if bool_decide (a < 2 ^ 53) then z
  else
    let e := Z.log2 a - 52 in
    let q := a / 2 ^ e in
    let r := a mod 2 ^ e in
    let half := 2 ^ (e - 1) in
    let up :=
      if bool_decide (r < half) then false
      else if bool_decide (half < r) then true
      else Z.odd q in
    Z.sgn z * ((if up then q + 1 else q) * 2 ^ e).

(** The double of an exact whole result: rounded, and infinite from
    [2^1024] on. *)
Definition double (z : Z) : number :=
  let r := round53 z in
  if bool_decide (2 ^ 1024 <= Z.abs r) then Infinity (bool_decide (z < 0)) else Num r.

Definition num_add (a b : number) : number :=
  match a, b with
  | Num x, Num y => double (x + y)
  | Infinity s, Num _ | Num _, Infinity s => Infinity s
  | Infinity s, Infinity s' => if bool_decide (s = s') then Infinity s else NaN
  | _, _ => NaN
  end.

Definition num_mul (a b : number) : number :=
  match a, b with
  | Num x, Num y => double (x * y)
  | Infinity s, Num y | Num y, Infinity s =>
      if bool_decide (y = 0) then NaN else Infinity (xorb s (bool_decide (y < 0)))
  | Infinity s, Infinity s' => Infinity (xorb s s')
  | _, _ => NaN
  end.

(** A positive number past the whole numbers that doubles hold exactly. *)
Definition beyond_safe (x : number) : Prop :=
  match x with
  | Num r => 2 ^ 53 <= r
  | Infinity negative => negative = false
  | NaN => False
  end.

(** [a <= b] on numbers: false as soon as one side is [NaN]. *)
Definition num_le (a b : number) : bool :=
  match a, b with
  | Num x, Num y => bool_decide (x <= y)
  | Infinity true, (Num _ | Infinity _) => true
  | Num _, Infinity false => true
  | Infinity false, Infinity false => true
  | _, _ => false
  end.

(** Truthiness, the test behind [if (x)], [x || y], [x && y], [!x] and
    [x ? a : b]. *)
Class Truthy (A : Type) := truthy : A -> bool.
#[global] Hint Mode Truthy ! : typeclass_instances.

#[global] Instance string_truthy : Truthy string :=
  fun s => negb (bool_decide (s = "")).

#[global] Instance number_truthy : Truthy number :=
  fun n =>
    match n with
    | NaN => false
    | Num z => negb (bool_decide (z = 0))
    | Infinity _ => true
    end.

(** [undefined] and [null] are [None]. *)
#[global] Instance option_truthy {A} `{Truthy A} : Truthy (option A) :=
  fun o => match o with Some a => truthy a | None => false end.

(** [a || b] on values that may be [undefined]. *)
Definition js_or {A} `{Truthy A} (a b : option A) : option A :=
  if truthy a then a else b.

(** [a || null]. *)
Definition or_null {A} `{Truthy A} (a : option A) : option A :=
  if truthy a then a else None.

(** [`${x}`] for a string that may be [undefined]. *)
Definition template (x : option string) : string :=
  match x with
  | Some s => s
  | None => "undefined"
  end.

(** [a ?? b]. *)
Definition nullish {A} (a : option A) (b : A) : A :=
  match a with
  | Some x => x
  | None => b
  end.

(** ** Programs and their runs *)

(** A computation that makes calls drawn from [E], then returns or throws.
    [await] of a rejected promise throws, so an [async] function is such a
    computation too. *)
Inductive Prog (E : Type -> Type) (A : Type) : Type :=
| Ret (a : A)
| Throw (e : JsError)
| Vis {R : Type} (c : E R) (k : R -> Prog E A).

Arguments Ret {E A} a.
Arguments Throw {E A} e.
Arguments Vis {E A R} c k.

Fixpoint bind {E A B} (p : Prog E A) (f : A -> Prog E B) : Prog E B :=
  match p with
  | Ret a => f a
  | Throw e => Throw e
  | Vis c k => Vis c (fun r => bind (k r) f)
  end.

Definition call {E R} (c : E R) : Prog E R := Vis c Ret.

(** The [x ← p; q] notation of stdpp reads as [const x = await p; q]. *)
#[global] Instance Prog_ret {E} : MRet (Prog E) := fun _ a => Ret a.
#[global] Instance Prog_bind {E} : MBind (Prog E) := fun _ _ f p => bind p f.

(** Re-tagging the calls of a program. *)
Fixpoint translate {E F : Type -> Type} {A} (inj : forall R, E R -> F R)
    (p : Prog E A) : Prog F A :=
  match p with
  | Ret a => Ret a
  | Throw e => Throw e
  | Vis c k => Vis (inj _ c) (fun r => translate inj (k r))
  end.

(** One call of a run and its answer. *)
Inductive Event (E : Type -> Type) : Type :=
| Ev {R : Type} (c : E R) (r : JsError + R).

Arguments Ev {E R} c r.

(** The outcome, the final state of the world and the calls made, in order.
    A call that fails ends the run with its error. *)
Fixpoint run {E : Type -> Type} {W A : Type}
    (handler : forall R, E R -> W -> (JsError + R) * W)
    (p : Prog E A) (w : W) : (JsError + A) * W * list (Event E) :=
  match p with
  | Ret a => (inr a, w, [])
  | Throw e => (inl e, w, [])
  | Vis c k =>
      let '(r, w1) := handler _ c w in
      match r with
      | inl e => (inl e, w1, [Ev c (inl e)])
      | inr x =>
          let '(o, w2, t) := run handler (k x) w1 in (o, w2, Ev c (inr x) :: t)
      end
  end.

Definition outcome {E : Type -> Type} {W A : Type}
    (handler : forall R, E R -> W -> (JsError + R) * W)
    (p : Prog E A) (w : W) : JsError + A :=
  (run handler p w).1.1.

Definition world_after {E : Type -> Type} {W A : Type}
    (handler : forall R, E R -> W -> (JsError + R) * W)
    (p : Prog E A) (w : W) : W :=
  (run handler p w).1.2.

Definition trace {E : Type -> Type} {W A : Type}
    (handler : forall R, E R -> W -> (JsError + R) * W)
    (p : Prog E A) (w : W) : list (Event E) :=
  (run handler p w).2.

(** ** The data of the adapter *)

(** An express request; the adapter only hands it to the resolvers. *)
Record Request : Type := {
  req_method : string;
  req_url : string;
  req_headers : list (string * string)
}.

(** A readable stream, by the bytes it yields. *)
Definition Readable : Type := list Byte.byte.

Abbreviation MASMetadata := (gmap string string).

Inductive JsValue : Type :=
| VUndefined
| VString (s : string)
| VNumber (n : number)
| VMetadata (m : MASMetadata)
| VStream (s : Readable).

(** [Express.Multer.File].  The adapter reads [originalname], [mimetype]
    and [stream]; [other_fields] holds the remaining properties of the
    object ([fieldname], [encoding], [size], ... and any property of a
    subtype such as [MulterOutFile]).  [non_enumerable] names the
    properties that were defined with [enumerable: false]: they are read
    like the others, but an object spread does not copy them.  multer, which
    builds the file, defines [stream] so. *)
Record File : Type := {
  originalname : string;
  mimetype : string;
  stream : Readable;
  other_fields : gmap string JsValue;
  non_enumerable : gset string
}.

(** The properties of the object. *)
Definition fields (file : File) : gmap string JsValue :=
  <["originalname" := VString (originalname file)]>
    (<["mimetype" := VString (mimetype file)]>
       (<["stream" := VStream (stream file)]> (other_fields file))).

(** The properties that [{...file}] copies: the enumerable ones. *)
Definition spread (file : File) : gmap string JsValue :=
  filter (fun property => property.1 ∉ non_enumerable file) (fields file).

(** [MulterOutFile] is built as an object literal. *)
Abbreviation MulterOutFile := (gmap string JsValue).

Record MASContentSettings : Type := {
  cacheControl : option string;
  contentType : option string;
  contentMD5 : option (list Byte.byte);
  contentEncoding : option string;
  contentLanguage : option string;
  contentDisposition : option string
}.

Inductive MASContainerAccessLevel : Type :=
| PublicContainer   (* 'container' *)
| PublicBlob        (* 'blob' *)
| Private.          (* 'private' *)

#[global] Instance MASContainerAccessLevel_eq_dec : EqDecision MASContainerAccessLevel.
Proof. solve_decision. Defined.

(** Calls to the imported runtime functions: [Date.now()], [v4()] of uuid
    and [extname] of node:path. *)
Inductive RuntimeCall : Type -> Type :=
| DateNow : RuntimeCall Z
| UuidV4 : RuntimeCall string
| Extname (path : string) : RuntimeCall string.

(** [(req, file) => Promise<T>]: a resolver may consult the runtime and
    may reject. *)
Definition MASResolverFunction (T : Type) : Type :=
  Request -> File -> Prog RuntimeCall T.

(** [T | MASResolverFunction<T>], told apart by [typeof value === 'function']. *)
Inductive Resolvable (T : Type) : Type :=
| Static (value : T)
| Resolver (f : MASResolverFunction T).

Arguments Static {T} value.
Arguments Resolver {T} f.

(** Objects and functions are truthy. *)
#[global] Instance MASMetadata_truthy : Truthy MASMetadata := fun _ => true.
#[global] Instance MASContentSettings_truthy : Truthy MASContentSettings := fun _ => true.
#[global] Instance MASResolverFunction_truthy {T} : Truthy (MASResolverFunction T) :=
  fun _ => true.
#[global] Instance Resolvable_truthy {T} `{Truthy T} : Truthy (Resolvable T) :=
  fun v => match v with Static value => truthy value | Resolver _ => true end.

(** [number | false]. *)
Inductive NumberOrFalse : Type :=
| IsFalse
| IsNumber (n : number).

Record IMASOptions : Type := {
  accessKey : option string;
  accountName : option string;
  connectionString : option string;
  urlExpirationTime : option NumberOrFalse;
  blobName : option (MASResolverFunction string);
  containerName : option (Resolvable string);
  autoCreateContainer : option bool;
  metadata : option (Resolvable MASMetadata);
  contentSettings : option (Resolvable MASContentSettings);
  containerAccessLevel : option MASContainerAccessLevel
}.

Definition DEFAULT_CONTAINER_ACCESS_LEVEL : MASContainerAccessLevel := Private.
Definition DEFAULT_URL_EXPIRATION_TIME : number := Num 60.

(** ** The Azure SDK, as the adapter uses it

    Client objects are represented by the way they were obtained; the
    operations that reach the service are calls. *)
Module Azure.

Record StorageSharedKeyCredential : Type := {
  accountName : string;
  accountKey : string
}.

Inductive BlobServiceClient : Type :=
| fromConnectionString (connectionString : string)
| new (url : string) (credential : StorageSharedKeyCredential).

(** Making a client can throw: the SDK parses the connection string, or
    the URL, when the client is made.  A factory tells what making a client
    throws, if it throws. *)
Definition ClientFactory : Type := BlobServiceClient -> option JsError.

Record ContainerClient : Type := {
  serviceClient : BlobServiceClient;
  containerName : string
}.

Definition getContainerClient (service : BlobServiceClient) (name : string)
    : ContainerClient :=
  {| serviceClient := service; containerName := name |}.

Record BlockBlobClient : Type := {
  containerClient : ContainerClient;
  name : string
}.

Definition getBlockBlobClient (container : ContainerClient) (blobName : string)
    : BlockBlobClient :=
  {| containerClient := container; name := blobName |}.

Record ContainerCreateOptions : Type := {
  access : option MASContainerAccessLevel
}.

Record BlobHTTPHeaders : Type := {
  blobCacheControl : option string;
  blobContentType : option string;
  blobContentMD5 : option (list Byte.byte);
  blobContentEncoding : option string;
  blobContentLanguage : option string;
  blobContentDisposition : option string
}.

Record BlockBlobUploadStreamOptions : Type := {
  metadata : option MASMetadata;
  blobHTTPHeaders : BlobHTTPHeaders
}.

(** [BlobSASPermissions.from(like)] sets the listed permissions. *)
Record BlobSASPermissions : Type := {
  read : bool;
  write : bool;
  delete : bool
}.

(** A [Date], by its time value in milliseconds; the time value of an
    invalid date is [NaN]. *)
Record Date : Type := { getTime : number }.

(** The largest time value of a [Date]: 100,000,000 days. *)
Definition MAX_TIME : Z := 8640000000000000.

(** [new Date(value)]: a value that is not finite, or is out of range,
    gives an invalid date. *)
Definition new_Date (value : number) : Date :=
  {| getTime :=
       match value with
       | Num t => if bool_decide (- MAX_TIME <= t <= MAX_TIME) then Num t else NaN
       | _ => NaN
       end |}.

Record BlobGenerateSasUrlOptions : Type := {
  expiresOn : option Date;
  permissions : BlobSASPermissions
}.

Record BlobGetPropertiesResponse : Type := {
  etag : option string;
  metadata_of : option MASMetadata;
  blobType : option string;
  contentLength : option Z
}.

Inductive SdkCall : Type -> Type :=
| createIfNotExists (client : ContainerClient) (options : ContainerCreateOptions)
    : SdkCall unit
| uploadStream (client : BlockBlobClient) (stream : Readable)
    (bufferSize maxConcurrency : option Z) (options : BlockBlobUploadStreamOptions)
    : SdkCall unit
| getProperties (client : BlockBlobClient) : SdkCall BlobGetPropertiesResponse
| generateSasUrl (client : BlockBlobClient) (options : BlobGenerateSasUrlOptions)
    : SdkCall string
| deleteIfExists (client : BlockBlobClient) : SdkCall unit.

End Azure.

(** Everything an operation of the adapter can call. *)
Inductive Call : Type -> Type :=
| Runtime {R : Type} (c : RuntimeCall R) : Call R
| Sdk {R : Type} (c : Azure.SdkCall R) : Call R.

(** [await resolver(req, file)] inside an operation of the adapter. *)
Definition await {A} (p : Prog RuntimeCall A) : Prog Call A :=
  translate (@Runtime) p.
(** ** MulterAzureStorage.ts *)

Definition promisifyValue {T} (value : T) : MASResolverFunction T :=
  fun _ _ => Ret value.

Definition promisifyOption {T} (value : Resolvable T) : MASResolverFunction T :=
  match value with
  | Resolver f => f
  | Static v => promisifyValue v
  end.

Definition generateBlobName : MASResolverFunction string :=
  fun _req file =>
    now ← call DateNow;
    uuid ← call UuidV4;
    ext ← call (Extname (originalname file));
    mret (pretty now +:+ "-" +:+ uuid +:+ ext).

Record MulterAzureStorage : Type := {
  _blobServiceClient : Azure.BlobServiceClient;
  _blobName : MASResolverFunction string;
  _urlExpirationTime : option number;
  _metadata : option (MASResolverFunction MASMetadata);
  _contentSettings : option (MASResolverFunction MASContentSettings);
  _containerName : MASResolverFunction string;
  _containerAccessLevel : MASContainerAccessLevel;
  _autoCreateContainer : bool
}.

(** The variable [connection] of the constructor. *)
Inductive Connection : Type :=
| ConnectionString (s : string)
| SharedKey (accountName accessKey : string).

Definition MISSING_CREDENTIALS : JsError :=
  Error "Missing required parameter: Either the connection string or account name and access key must be provided.".
Definition MISSING_CONTAINER_NAME : JsError :=
  Error "Missing required parameter: Azure container name.".

(** Lines 90-99: the credential assembled from the options and from
    [process.env]. *)
Definition resolveConnection (options : IMASOptions) (env : gmap string string)
    : option Connection :=
  let connectionString :=
    or_null (js_or (connectionString options) (env !! "AZURE_STORAGE_CONNECTION_STRING")) in
  let accessKey :=
    or_null (js_or (accessKey options) (env !! "AZURE_STORAGE_ACCESS_KEY")) in
  let accountName :=
    or_null (js_or (accountName options) (env !! "AZURE_STORAGE_ACCOUNT")) in
  if truthy connectionString then ConnectionString <$> connectionString
  else if truthy accessKey && truthy accountName then
    name ← accountName; key ← accessKey; Some (SharedKey name key)
  else None.

(** Lines 117-123. *)
Definition resolveUrlExpirationTime (options : IMASOptions) : option number :=
  match urlExpirationTime options with
  | Some IsFalse => None
  | None => Some DEFAULT_URL_EXPIRATION_TIME
  | Some (IsNumber n) =>
      if num_le n (Num 0) then Some DEFAULT_URL_EXPIRATION_TIME else Some n
  end.

(** Lines 127-132: the client asked of the SDK. *)
Definition blobServiceClient_of (options : IMASOptions) (connection : Connection)
    : Azure.BlobServiceClient :=
  match connection with
  | ConnectionString s => Azure.fromConnectionString s
  | SharedKey name key =>
      let credentials := {| Azure.accountName := name; Azure.accountKey := key |} in
      Azure.new
        ("https://" +:+ template (accountName options) +:+ ".blob.core.windows.net")
        credentials
  end.

(** [new MulterAzureStorage(options)], under the environment [env] and with
    the client factory [sdk] of the SDK: the error thrown, or the adapter.
    The client is made last, after both checks; what the SDK throws there
    leaves the constructor. *)
Definition constructor (sdk : Azure.ClientFactory) (options : IMASOptions)
    (env : gmap string string) : JsError + MulterAzureStorage :=
  match resolveConnection options env with
  | None => inl MISSING_CREDENTIALS
  | Some connection =>
      match containerName options with
      | None => inl MISSING_CONTAINER_NAME
      | Some name =>
          if negb (truthy name) then inl MISSING_CONTAINER_NAME
          else
            match sdk (blobServiceClient_of options connection) with
            | Some e => inl e
            | None => inr {|
                _containerName := promisifyOption name;
                _containerAccessLevel :=
                  nullish (containerAccessLevel options) DEFAULT_CONTAINER_ACCESS_LEVEL;
                _metadata :=
                  if truthy (metadata options) then promisifyOption <$> metadata options
                  else None;
                _contentSettings :=
                  if truthy (contentSettings options)
                  then promisifyOption <$> contentSettings options
                  else None;
                _blobName :=
                  if truthy (blobName options)
                  then default generateBlobName (blobName options)
                  else generateBlobName;
                _urlExpirationTime := resolveUrlExpirationTime options;
                _autoCreateContainer := nullish (autoCreateContainer options) true;
                _blobServiceClient := blobServiceClient_of options connection
              |}
            end
      end
  end.

(** A property value that may be [undefined]. *)
Definition js_value {A} (inj : A -> JsValue) (x : option A) : JsValue :=
  from_option inj VUndefined x.

Definition _getContainerClient (self : MulterAzureStorage) (containerName : string)
    : Prog Call Azure.ContainerClient :=
  let containerClient :=
    Azure.getContainerClient (_blobServiceClient self) containerName in
  _ ← (if _autoCreateContainer self then
         let publicAccessLevel :=
           if decide (_containerAccessLevel self = Private) then None
           else Some (_containerAccessLevel self) in
         call (Sdk (Azure.createIfNotExists containerClient
                      {| Azure.access := publicAccessLevel |}))
       else mret tt);
  mret containerClient.

(** Line 171: the [expiresOn] of the signed URL. *)
Definition expiresOn_of (self : MulterAzureStorage) : Prog Call (option Azure.Date) :=
  match _urlExpirationTime self with
  | Some minutes =>
      if truthy minutes then
        now ← call (Runtime DateNow);
        mret (Some (Azure.new_Date
                      (num_add (Num now) (num_mul (num_mul minutes (Num 60)) (Num 1000)))))
      else mret None
  | None => mret None
  end.

Definition _handleFileAsync (self : MulterAzureStorage) (req : Request) (file : File)
    : Prog Call MulterOutFile :=
  containerName ← await (_containerName self req file);
  blobName ← await (_blobName self req file);
  contentSettings ←
    match _contentSettings self with
    | Some resolver => await (resolver req file)
    | None =>
        mret {| cacheControl := None;
                contentType := Some (mimetype file);
                contentMD5 := None;
                contentEncoding := None;
                contentLanguage := None;
                contentDisposition := Some "inline" |}
    end;
  metadata ←
    match _metadata self with
    | Some resolver => m ← await (resolver req file); mret (Some m)
    | None => mret None
    end;
  containerClient ← _getContainerClient self containerName;
  let blockBlobClient := Azure.getBlockBlobClient containerClient blobName in
  _ ← call (Sdk (Azure.uploadStream blockBlobClient (stream file) None None
                   {| Azure.metadata := js_or metadata None;
                      Azure.blobHTTPHeaders :=
                        {| Azure.blobCacheControl := cacheControl contentSettings;
                           Azure.blobContentType := contentType contentSettings;
                           Azure.blobContentMD5 := contentMD5 contentSettings;
                           Azure.blobContentEncoding := contentEncoding contentSettings;
                           Azure.blobContentLanguage := contentLanguage contentSettings;
                           Azure.blobContentDisposition :=
                             contentDisposition contentSettings |} |}));
  blobProperties ← call (Sdk (Azure.getProperties blockBlobClient));
  expiresOn ← expiresOn_of self;
  sasUrl ← call (Sdk (Azure.generateSasUrl blockBlobClient
                        {| Azure.expiresOn := expiresOn;
                           Azure.permissions :=
                             {| Azure.read := true;
                                Azure.write := false;
                                Azure.delete := false |} |}));
  mret (<["url" := VString sasUrl]>
        (<["etag" := js_value VString (Azure.etag blobProperties)]>
         (<["metadata" := js_value VMetadata (Azure.metadata_of blobProperties)]>
          (<["containerName" := VString containerName]>
           (<["blobName" := VString blobName]>
            (<["blobType" := js_value VString (Azure.blobType blobProperties)]>
             (<["blobSize" :=
                  js_value (fun n => VNumber (Num n)) (Azure.contentLength blobProperties)]>
              (spread file)))))))).

Definition _removeFileAsync (self : MulterAzureStorage) (req : Request) (file : File)
    : Prog Call unit :=
  containerName ← await (_containerName self req file);
  blobName ← await (_blobName self req file);
  containerClient ← _getContainerClient self containerName;
  let blockBlobClient := Azure.getBlockBlobClient containerClient blobName in
  call (Sdk (Azure.deleteIfExists blockBlobClient)).

(** ** An in-memory runtime and blob service

    The handlers of the runtime and of the SDK are parameters of every run;
    neither is part of the repository.  The ones below serve to run the
    operations on examples. *)

(** Modelled from Node.js: [path.posix.extname], scanning the path from its
    end. *)
Module Path.

Record Scan : Type := {
  startDot : Z;
  startPart : Z;
  end_ : Z;
  matchedSlash : bool;
  preDotState : Z;
  stopped : bool
}.

Definition step (st : Scan) (ic : Z * ascii) : Scan :=
  let '(i, code) := ic in
  if stopped st then st
  else if bool_decide (code = "/"%char) then
    if negb (matchedSlash st) then
      {| startDot := startDot st; startPart := i + 1; end_ := end_ st;
         matchedSlash := matchedSlash st; preDotState := preDotState st;
         stopped := true |}
    else st
  else
    let st1 :=
      if bool_decide (end_ st = -1) then
        {| startDot := startDot st; startPart := startPart st; end_ := i + 1;
           matchedSlash := false; preDotState := preDotState st;
           stopped := false |}
      else st in
    if bool_decide (code = "."%char) then
      if bool_decide (startDot st1 = -1) then
        {| startDot := i; startPart := startPart st1; end_ := end_ st1;
           matchedSlash := matchedSlash st1; preDotState := preDotState st1;
           stopped := false |}
      else if negb (bool_decide (preDotState st1 = 1)) then
        {| startDot := startDot st1; startPart := startPart st1; end_ := end_ st1;
           matchedSlash := matchedSlash st1; preDotState := 1;
           stopped := false |}
      else st1
    else if negb (bool_decide (startDot st1 = -1)) then
      {| startDot := startDot st1; startPart := startPart st1; end_ := end_ st1;
         matchedSlash := matchedSlash st1; preDotState := -1;
         stopped := false |}
    else st1.

Definition extname (path : string) : string :=
  let chars := String.list_ascii_of_string path in
  let indexed := imap (fun i c => (Z.of_nat i, c)) chars in
  let st :=
    foldl step
      {| startDot := -1; startPart := 0; end_ := -1; matchedSlash := true;
         preDotState := 0; stopped := false |}
      (reverse indexed) in
  if bool_decide (startDot st = -1) || bool_decide (end_ st = -1)
     || bool_decide (preDotState st = 0)
     || (bool_decide (preDotState st = 1)
         && bool_decide (startDot st = end_ st - 1)
         && bool_decide (startDot st = startPart st + 1))
  then ""
  else String.substring (Z.to_nat (startDot st))
         (Z.to_nat (end_ st - startDot st)) path.

End Path.

(** Modelled from the spec: the blob service behind the SDK.  It keeps the
    containers and their blobs in a map and answers as the spec describes
    the operations: creation "must not fail if the container already
    exists", and "deleting a non-existent blob is a no-op, not an error".
    A signed URL carries its expiry as a time, which an invalid date does
    not have: signing is then refused. *)
Record Blob : Type := {
  content : Readable;
  headers : Azure.BlobHTTPHeaders;
  blob_metadata : option MASMetadata
}.

Record Container : Type := {
  publicAccess : option MASContainerAccessLevel;
  blobs : gmap string Blob
}.

Record World : Type := {
  clock : Z;
  uuids : list string;
  containers : gmap string Container
}.

Definition NIL_UUID : string := "00000000-0000-4000-8000-000000000000".

Definition runtime {R} (c : RuntimeCall R) (w : World) : (JsError + R) * World :=
  match c in RuntimeCall R return (JsError + R) * World with
  | DateNow => (inr (clock w), w)
  | UuidV4 =>
      match uuids w with
      | u :: rest =>
          (inr u, {| clock := clock w; uuids := rest; containers := containers w |})
      | [] => (inr NIL_UUID, w)
      end
  | Extname path => (inr (Path.extname path), w)
  end.

Definition put_container (name : string) (c : Container) (w : World) : World :=
  {| clock := clock w; uuids := uuids w; containers := <[name := c]> (containers w) |}.

Definition container_of (client : Azure.BlockBlobClient) : string :=
  Azure.containerName (Azure.containerClient client).

Definition sas_url (client : Azure.BlockBlobClient)
    (options : Azure.BlobGenerateSasUrlOptions) : string :=
  "/" +:+ container_of client +:+ "/" +:+ Azure.name client +:+ "?sp=r"
    +:+ match Azure.expiresOn options with
        | Some {| Azure.getTime := Num t |} => "&se=" +:+ pretty t
        | _ => ""
        end
    +:+ "&sig=signature".

Definition azure {R} (c : Azure.SdkCall R) (w : World) : (JsError + R) * World :=
  match c in Azure.SdkCall R return (JsError + R) * World with
  | Azure.createIfNotExists client options =>
      match containers w !! Azure.containerName client with
      | Some _ => (inr tt, w)
      | None =>
          (inr tt,
           put_container (Azure.containerName client)
             {| publicAccess := Azure.access options; blobs := ∅ |} w)
      end
  | Azure.uploadStream client stream _ _ options =>
      match containers w !! container_of client with
      | None => (inl (Error "ContainerNotFound"), w)
      | Some c =>
          (inr tt,
           put_container (container_of client)
             {| publicAccess := publicAccess c;
                blobs := <[Azure.name client :=
                             {| content := stream;
                                headers := Azure.blobHTTPHeaders options;
                                blob_metadata := Azure.metadata options |}]> (blobs c) |}
             w)
      end
  | Azure.getProperties client =>
      match containers w !! container_of client ≫= fun c => blobs c !! Azure.name client with
      | None => (inl (Error "BlobNotFound"), w)
      | Some b =>
          (inr {| Azure.etag := Some "0x1";
                  Azure.metadata_of := blob_metadata b;
                  Azure.blobType := Some "BlockBlob";
                  Azure.contentLength := Some (Z.of_nat (length (content b))) |}, w)
      end
  | Azure.generateSasUrl client options =>
      match Azure.expiresOn options with
      | Some {| Azure.getTime := Num _ |} | None => (inr (sas_url client options), w)
      | Some _ => (inl (RangeError "Invalid time value"), w)
      end
  | Azure.deleteIfExists client =>
      match containers w !! container_of client with
      | None => (inl (Error "ContainerNotFound"), w)
      | Some c =>
          (inr tt,
           put_container (container_of client)
             {| publicAccess := publicAccess c;
                blobs := base.delete (Azure.name client) (blobs c) |} w)
      end
  end.

Definition service (R : Type) (c : Call R) (w : World) : (JsError + R) * World :=
  match c in Call R return (JsError + R) * World with
  | Runtime c => runtime c w
  | Sdk c => azure c w
  end.

(** [part] occurs in [s]. *)
Definition occurs (part s : string) : bool :=
  match String.index 0 part s with
  | Some _ => true
  | None => false
  end.

(** Modelled from the Azure SDK, which is not part of the repository: what
    making a client throws, for the clients of the examples.  The SDK reads
    a connection string as settings [Key=value] separated by [;].  In a
    string that names none of them, such as ["garbage"], it finds no blob
    endpoint and throws [TypeError: Invalid URL].  Every other client is
    taken as made; the SDK does make those of the examples: from the
    development connection string, from a string that gives a blob endpoint
    and a shared access signature, and from the URL of an account with a
    shared key. *)
Definition client_factory : Azure.ClientFactory :=
  fun client =>
    match client with
    | Azure.fromConnectionString s =>
        if occurs "=" s || occurs "BlobEndpoint" s
           || occurs "SharedAccessSignature" s || occurs "AccountName" s
        then None
        else Some (TypeError "Invalid URL")
    | Azure.new _ _ => None
    end.


(** ** A logic of calls

    [Meets P Q h p]: started after the calls [h], the program [p] only makes
    calls allowed by [P] (which sees the calls made so far), and when it
    returns [a] after the calls [h'], [Q h' a] holds.  Nothing is asked of
    the answers: the judgement holds against every handler. *)
Definition CallSpec (E : Type -> Type) : Type := list (Event E) -> Event E -> Prop.

Inductive Meets {E : Type -> Type} {A : Type} (P : CallSpec E)
    (Q : list (Event E) -> A -> Prop) : list (Event E) -> Prog E A -> Prop :=
| Meets_Ret h a : Q h a -> Meets P Q h (Ret a)
| Meets_Throw h e : Meets P Q h (Throw e)
| Meets_Vis h R (c : E R) k :
    (forall r, P h (Ev c r)) ->
    (forall x, Meets P Q (h ++ [Ev c (inr x)]) (k x)) ->
    Meets P Q h (Vis c k).

(** ** What the operations call *)

(** The SDK calls of a run, by kind. *)
Definition creation_of (ev : Event Call)
    : option (Azure.ContainerClient * Azure.ContainerCreateOptions) :=
  match ev with
  | Ev (Sdk (Azure.createIfNotExists client options)) _ => Some (client, options)
  | _ => None
  end.

Definition upload_of (ev : Event Call)
    : option (Azure.BlockBlobClient * Azure.BlockBlobUploadStreamOptions) :=
  match ev with
  | Ev (Sdk (Azure.uploadStream client _ _ _ options)) _ => Some (client, options)
  | _ => None
  end.

Definition signing_of (ev : Event Call)
    : option (Azure.BlockBlobClient * Azure.BlobGenerateSasUrlOptions) :=
  match ev with
  | Ev (Sdk (Azure.generateSasUrl client options)) _ => Some (client, options)
  | _ => None
  end.

Definition deletion_of (ev : Event Call) : option Azure.BlockBlobClient :=
  match ev with
  | Ev (Sdk (Azure.deleteIfExists client)) _ => Some client
  | _ => None
  end.

Definition creations (t : list (Event Call)) := omap creation_of t.
Definition uploads (t : list (Event Call)) := omap upload_of t.
Definition signings (t : list (Event Call)) := omap signing_of t.
Definition deletions (t : list (Event Call)) := omap deletion_of t.

Definition default_headers (file : File) : Azure.BlobHTTPHeaders :=
  {| Azure.blobCacheControl := None;
     Azure.blobContentType := Some (mimetype file);
     Azure.blobContentMD5 := None;
     Azure.blobContentEncoding := None;
     Azure.blobContentLanguage := None;
     Azure.blobContentDisposition := Some "inline" |}.

Definition read_only : Azure.BlobSASPermissions :=
  {| Azure.read := true; Azure.write := false; Azure.delete := false |}.

(** The access level of line 197. *)
Definition publicAccessLevel (self : MulterAzureStorage)
    : option MASContainerAccessLevel :=
  match _containerAccessLevel self with
  | Private => None
  | level => Some level
  end.

(** What a [createIfNotExists] of the adapter is given. *)
Definition creation_spec (self : MulterAzureStorage) (client : Azure.ContainerClient)
    (options : Azure.ContainerCreateOptions) : Prop :=
  _autoCreateContainer self = true
  /\ Azure.serviceClient client = _blobServiceClient self
  /\ match _containerAccessLevel self with
     | Private => Azure.access options = None
     | level => Azure.access options = Some level
     end.

(** The date of line 171: [new Date(now + minutes * 60 * 1000)]. *)
Definition minutes_after (now : Z) (minutes : number) : Azure.Date :=
  Azure.new_Date (num_add (Num now) (num_mul (num_mul minutes (Num 60)) (Num 1000))).

(** The expiry handed to [generateSasUrl] after the calls [h]. *)
Definition expiry_spec (self : MulterAzureStorage) (h : list (Event Call))
    (options : Azure.BlobGenerateSasUrlOptions) : Prop :=
  match _urlExpirationTime self with
  | Some minutes =>
      if truthy minutes then
        exists h' now,
          h = h' ++ [Ev (Runtime DateNow) (inr now)]
          /\ Azure.expiresOn options = Some (minutes_after now minutes)
      else Azure.expiresOn options = None
  | None => Azure.expiresOn options = None
  end.

(** The calls of a store. *)
Definition store_calls (self : MulterAzureStorage) (file : File) : CallSpec Call :=
  fun h ev =>
    match ev with
    | Ev (Runtime _) _ => True
    | Ev (Sdk (Azure.createIfNotExists client options)) _ =>
        creation_spec self client options
    | Ev (Sdk (Azure.uploadStream client s bufferSize maxConcurrency options)) _ =>
        s = stream file /\ bufferSize = None /\ maxConcurrency = None
        /\ (_contentSettings self = None ->
            Azure.blobHTTPHeaders options = default_headers file)
        /\ (_metadata self = None -> Azure.metadata options = None)
    | Ev (Sdk (Azure.getProperties _)) _ => True
    | Ev (Sdk (Azure.generateSasUrl _ options)) _ =>
        Azure.permissions options = read_only /\ expiry_spec self h options
    | Ev (Sdk (Azure.deleteIfExists _)) _ => False
    end.

(** The object literal of lines 174-183. *)
Definition descriptor (file : File) (containerName blobName sasUrl : string)
    (blobProperties : Azure.BlobGetPropertiesResponse) : MulterOutFile :=
  <["url" := VString sasUrl]>
    (<["etag" := js_value VString (Azure.etag blobProperties)]>
     (<["metadata" := js_value VMetadata (Azure.metadata_of blobProperties)]>
      (<["containerName" := VString containerName]>
       (<["blobName" := VString blobName]>
        (<["blobType" := js_value VString (Azure.blobType blobProperties)]>
         (<["blobSize" :=
              js_value (fun n => VNumber (Num n)) (Azure.contentLength blobProperties)]>
          (spread file))))))).

(** A store that returns has uploaded to, fetched the properties of and
    signed a URL for one blob, named by the resolved names, and returns the
    descriptor made of the answers. *)
Definition store_post (self : MulterAzureStorage) (file : File)
    (h : list (Event Call)) (out : MulterOutFile) : Prop :=
  exists containerName blobName uploadOptions blobProperties sasOptions sasUrl,
    let client :=
      Azure.getBlockBlobClient
        (Azure.getContainerClient (_blobServiceClient self) containerName) blobName in
    Ev (Sdk (Azure.uploadStream client (stream file) None None uploadOptions)) (inr tt) ∈ h
    /\ Ev (Sdk (Azure.getProperties client)) (inr blobProperties) ∈ h
    /\ Ev (Sdk (Azure.generateSasUrl client sasOptions)) (inr sasUrl) ∈ h
    /\ out = descriptor file containerName blobName sasUrl blobProperties.

(** A removal only creates the container, as a store does, and deletes; it
    deletes right after the container was ensured, when that is enabled. *)
Definition remove_calls (self : MulterAzureStorage) : CallSpec Call :=
  fun h ev =>
    match ev with
    | Ev (Runtime _) _ => True
    | Ev (Sdk (Azure.createIfNotExists client options)) _ =>
        creation_spec self client options
    | Ev (Sdk (Azure.deleteIfExists client)) _ =>
        Azure.serviceClient (Azure.containerClient client) = _blobServiceClient self
        /\ (_autoCreateContainer self = true ->
            exists h' options,
              h = h' ++ [Ev (Sdk (Azure.createIfNotExists (Azure.containerClient client)
                                    options)) (inr tt)])
    | Ev (Sdk _) _ => False
    end.

(** ** The words of the specification *)

(** A setting is available when the option, or failing it the environment
    variable, holds a non-empty string: an empty string is not a value for
    [||]. *)
Definition available (explicit : option string) (variable : string)
    (env : gmap string string) : bool :=
  truthy explicit || truthy (env !! variable).

(** A connection string, or an account name together with an access key. *)
Definition credential_available (options : IMASOptions) (env : gmap string string)
    : bool :=
  available (connectionString options) "AZURE_STORAGE_CONNECTION_STRING" env
  || (available (accountName options) "AZURE_STORAGE_ACCOUNT" env
      && available (accessKey options) "AZURE_STORAGE_ACCESS_KEY" env).

(** A container-name source is a resolver function or a non-empty name. *)
Definition container_name_supplied (options : IMASOptions) : bool :=
  truthy (containerName options).

(** The two errors of construction. *)
Definition ConfigurationError (e : JsError) : Prop :=
  e = MISSING_CREDENTIALS \/ e = MISSING_CONTAINER_NAME.

(** The errors of the SDK are its own: it throws neither of the two. *)
Definition foreign_errors (sdk : Azure.ClientFactory) : Prop :=
  forall client e, sdk client = Some e -> ~ ConfigurationError e.

(** The access a container is created with, by [containerAccessLevel]:
    none for [private], which is also the default. *)
Definition creation_access (options : IMASOptions) : option MASContainerAccessLevel :=
  match containerAccessLevel options with
  | Some PublicContainer => Some PublicContainer
  | Some PublicBlob => Some PublicBlob
  | Some Private | None => None
  end.

(** The fields that the store adds to the file. *)
Definition added_fields : gset string :=
  {[ "url"; "etag"; "metadata"; "containerName"; "blobName"; "blobType"; "blobSize" ]}.

(** Every field of the input file is in the descriptor, unchanged. *)
Definition keeps_every_field (file : File) (out : MulterOutFile) : Prop :=
  forall k v, fields file !! k = Some v -> out !! k = Some v.

(** ** Example data *)

(** [{accessKey: "a2V5", containerName: "uploads"}] *)
Definition key_only_options : IMASOptions :=
  {| accessKey := Some "a2V5"; accountName := None; connectionString := None;
     urlExpirationTime := None; blobName := None;
     containerName := Some (Static "uploads");
     autoCreateContainer := None; metadata := None; contentSettings := None;
     containerAccessLevel := None |}.

(** [{accessKey: "a2V5", accountName: "acct", containerName: "uploads"}] *)
Definition key_and_account_options : IMASOptions :=
  {| accessKey := Some "a2V5"; accountName := Some "acct"; connectionString := None;
     urlExpirationTime := None; blobName := None;
     containerName := Some (Static "uploads");
     autoCreateContainer := None; metadata := None; contentSettings := None;
     containerAccessLevel := None |}.

(** [{connectionString: "UseDevelopmentStorage=true", containerName: "uploads"}],
    with [urlExpirationTime] and [containerAccessLevel] as given. *)
Definition dev_options_with (expiration : option NumberOrFalse)
    (level : option MASContainerAccessLevel) : IMASOptions :=
  {| accessKey := None; accountName := None;
     connectionString := Some "UseDevelopmentStorage=true";
     urlExpirationTime := expiration; blobName := None;
     containerName := Some (Static "uploads");
     autoCreateContainer := None; metadata := None; contentSettings := None;
     containerAccessLevel := level |}.

Definition dev_options : IMASOptions := dev_options_with None None.

(** [{connectionString: "UseDevelopmentStorage=true", containerName: "uploads",
      containerAccessLevel: 'private', autoCreateContainer: true}] *)
Definition private_options : IMASOptions :=
  {| accessKey := None; accountName := None;
     connectionString := Some "UseDevelopmentStorage=true";
     urlExpirationTime := None; blobName := None;
     containerName := Some (Static "uploads");
     autoCreateContainer := Some true; metadata := None; contentSettings := None;
     containerAccessLevel := Some Private |}.

(** [{connectionString: "UseDevelopmentStorage=true", containerName: ""}] *)
Definition empty_container_name_options : IMASOptions :=
  {| accessKey := None; accountName := None;
     connectionString := Some "UseDevelopmentStorage=true";
     urlExpirationTime := None; blobName := None;
     containerName := Some (Static "");
     autoCreateContainer := None; metadata := None; contentSettings := None;
     containerAccessLevel := None |}.

Definition dev_adapter : MulterAzureStorage :=
  {| _blobServiceClient := Azure.fromConnectionString "UseDevelopmentStorage=true";
     _blobName := generateBlobName;
     _urlExpirationTime := Some (Num 60);
     _metadata := None;
     _contentSettings := None;
     _containerName := promisifyValue "uploads";
     _containerAccessLevel := Private;
     _autoCreateContainer := true |}.

Definition request : Request :=
  {| req_method := "POST"; req_url := "/upload";
     req_headers := [("content-type", "multipart/form-data")] |}.

(** The file of an upload, as multer hands it to the storage engine: the
    enumerable [fieldname], [originalname], [encoding] and [mimetype], and
    the stream, not enumerable. *)
Definition photo : File :=
  {| originalname := "photo.png";
     mimetype := "image/png";
     stream := [Byte.x89; Byte.x50; Byte.x4e; Byte.x47];
     other_fields := {[ "fieldname" := VString "avatar"; "encoding" := VString "7bit" ]};
     non_enumerable := {[ "stream" ]} |}.

(** The same file as a plain object literal: every property enumerable. *)
Definition plain_photo : File :=
  {| originalname := "photo.png";
     mimetype := "image/png";
     stream := [Byte.x89; Byte.x50; Byte.x4e; Byte.x47];
     other_fields := {[ "fieldname" := VString "avatar"; "encoding" := VString "7bit" ]};
     non_enumerable := ∅ |}.

(** [{connectionString: "garbage", containerName: "uploads"}] *)
Definition garbage_options : IMASOptions :=
  {| accessKey := None; accountName := None;
     connectionString := Some "garbage";
     urlExpirationTime := None; blobName := None;
     containerName := Some (Static "uploads");
     autoCreateContainer := None; metadata := None; contentSettings := None;
     containerAccessLevel := None |}.

(** An empty account at 2023-11-14T22:13:20Z. *)
Definition w0 : World :=
  {| clock := 1700000000000;
     uuids := ["9b1deb4d-3b7d-4bad-9bdd-2b0d7b3dcb6d"];
     containers := ∅ |}.

Definition dev_blob_name : string :=
  "1700000000000-9b1deb4d-3b7d-4bad-9bdd-2b0d7b3dcb6d.png".

Definition dev_container : Azure.ContainerClient :=
  Azure.getContainerClient (Azure.fromConnectionString "UseDevelopmentStorage=true")
    "uploads".

Definition dev_blob : Azure.BlockBlobClient :=
  Azure.getBlockBlobClient dev_container dev_blob_name.

Definition dev_upload_options : Azure.BlockBlobUploadStreamOptions :=
  {| Azure.metadata := None;
     Azure.blobHTTPHeaders :=
       {| Azure.blobCacheControl := None;
          Azure.blobContentType := Some "image/png";
          Azure.blobContentMD5 := None;
          Azure.blobContentEncoding := None;
          Azure.blobContentLanguage := None;
          Azure.blobContentDisposition := Some "inline" |} |}.

Definition dev_properties : Azure.BlobGetPropertiesResponse :=
  {| Azure.etag := Some "0x1";
     Azure.metadata_of := None;
     Azure.blobType := Some "BlockBlob";
     Azure.contentLength := Some 4 |}.

Definition dev_sas_options : Azure.BlobGenerateSasUrlOptions :=
  {| Azure.expiresOn := Some {| Azure.getTime := Num 1700003600000 |};
     Azure.permissions := read_only |}.

Definition dev_sas_url : string :=
  "/uploads/1700000000000-9b1deb4d-3b7d-4bad-9bdd-2b0d7b3dcb6d.png?sp=r&se=1700003600000&sig=signature".

Definition dev_store : Prog Call MulterOutFile :=
  _handleFileAsync dev_adapter request photo.

Definition dev_remove : Prog Call unit :=
  _removeFileAsync dev_adapter request photo.

(** The expiry of the signed URLs of a store, by [urlExpirationTime]. *)
Definition expiry_under (e : option NumberOrFalse) : list (option Azure.Date) :=
  match constructor client_factory (dev_options_with e None) ∅ with
  | inr self =>
      (fun s => Azure.expiresOn s.2)
        <$> signings (trace service (_handleFileAsync self request photo) w0)
  | inl _ => []
  end.

(** The access of the container creations of a store and of a removal, by
    [containerAccessLevel]. *)
Definition access_under (level : option MASContainerAccessLevel)
    : list (option MASContainerAccessLevel) :=
  match constructor client_factory (dev_options_with None level) ∅ with
  | inr self =>
      (fun c => Azure.access c.2)
        <$> (creations (trace service (_handleFileAsync self request photo) w0)
             ++ creations (trace service (_removeFileAsync self request photo) w0))
  | inl _ => []
  end.

(** ** The callbacks of the storage engine *)

(** A promise chain, settled: its outcome, the world after it and the
    invocations of the callback it made, in order. *)
Definition Chain (W I A : Type) : Type := (JsError + A) * W * list I.

(** [promise.then(f)]. *)
Definition promise_then {W I A B} (p : Chain W I A) (f : A -> W -> Chain W I B)
    : Chain W I B :=
  match p with
  | (inr a, w, log) => let '(o, w', log') := f a w in (o, w', log ++ log')
  | (inl e, w, log) => (inl e, w, log)
  end.

(** [promise.catch(g)]. *)
Definition promise_catch {W I A} (p : Chain W I A) (g : JsError -> W -> Chain W I A)
    : Chain W I A :=
  match p with
  | (inl e, w, log) => let '(o, w', log') := g e w in (o, w', log ++ log')
  | (inr a, w, log) => (inr a, w, log)
  end.

(** A call of the callback, which may throw. *)
Definition invoke {W I} (cb : I -> W -> (JsError + unit) * W) (args : I) (w : W)
    : Chain W I unit :=
  let '(r, w') := cb args w in (r, w', [args]).

(** The promise of an operation of the adapter. *)
Definition promise {W I A} (handler : forall R, Call R -> W -> (JsError + R) * W)
    (p : Prog Call A) (w : W) : Chain W I A :=
  let '(o, w', _) := run handler p w in (o, w', []).

(** The arguments [cb] of [_handleFile] is called with: [cb(null, file)]
    or [cb(err)]. *)
Inductive HandleFileCallback : Type :=
| HandleFileInfo (info : MulterOutFile)
| HandleFileError (error : JsError).

(** The arguments [cb] of [_removeFile] is called with: [cb(null)] or
    [cb(err)]. *)
Inductive RemoveFileCallback : Type :=
| RemoveFileDone
| RemoveFileError (error : JsError).

Definition _handleFile {W} (handler : forall R, Call R -> W -> (JsError + R) * W)
    (self : MulterAzureStorage) (req : Request) (file : File)
    (cb : HandleFileCallback -> W -> (JsError + unit) * W) (w : W)
    : Chain W HandleFileCallback unit :=
  promise_catch
    (promise_then (promise handler (_handleFileAsync self req file) w)
       (fun file => invoke cb (HandleFileInfo file)))
    (fun err => invoke cb (HandleFileError err)).

Definition _removeFile {W} (handler : forall R, Call R -> W -> (JsError + R) * W)
    (self : MulterAzureStorage) (req : Request) (file : File)
    (cb : RemoveFileCallback -> W -> (JsError + unit) * W) (w : W)
    : Chain W RemoveFileCallback unit :=
  promise_catch
    (promise_then (promise handler (_removeFileAsync self req file) w)
       (fun _ => invoke cb RemoveFileDone))
    (fun err => invoke cb (RemoveFileError err)).

(** ** The exact calls of the operations *)

(** [ReturnsVia p t a]: the program [p] returns [a] when its calls are
    answered as in [t]. *)
Fixpoint ReturnsVia {E A} (p : Prog E A) (t : list (Event E)) (a : A) : Prop :=
  match p with
  | Ret a' => t = [] /\ a' = a
  | Throw _ => False
  | Vis c k => exists x t', t = Ev c (inr x) :: t' /\ ReturnsVia (k x) t' a
  end.

(** A call of a resolver, seen from the operation that awaits it. *)
Definition awaited (ev : Event RuntimeCall) : Event Call :=
  match ev with
  | Ev c r => Ev (Runtime c) r
  end.

Definition is_sdk (ev : Event Call) : bool :=
  match ev with
  | Ev (Sdk _) _ => true
  | Ev (Runtime _) _ => false
  end.

(** The calls to the SDK among the calls of a run. *)
Definition sdk_calls (t : list (Event Call)) : list (Event Call) :=
  List.filter is_sdk t.

Definition headers_of (settings : MASContentSettings) : Azure.BlobHTTPHeaders :=
  {| Azure.blobCacheControl := cacheControl settings;
     Azure.blobContentType := contentType settings;
     Azure.blobContentMD5 := contentMD5 settings;
     Azure.blobContentEncoding := contentEncoding settings;
     Azure.blobContentLanguage := contentLanguage settings;
     Azure.blobContentDisposition := contentDisposition settings |}.

Definition default_settings (file : File) : MASContentSettings :=
  {| cacheControl := None;
     contentType := Some (mimetype file);
     contentMD5 := None;
     contentEncoding := None;
     contentLanguage := None;
     contentDisposition := Some "inline" |}.

(** The blob client of lines 155-156 and 189-190. *)
Definition blob_client (self : MulterAzureStorage) (containerName blobName : string)
    : Azure.BlockBlobClient :=
  Azure.getBlockBlobClient
    (Azure.getContainerClient (_blobServiceClient self) containerName) blobName.

(** The names resolved by lines 148-149 and 187-188, along the calls [t]. *)
Definition ResolvedNames (self : MulterAzureStorage) (req : Request) (file : File)
    (t : list (Event Call)) (containerName blobName : string) : Prop :=
  exists tc tb,
    t = (awaited <$> tc) ++ (awaited <$> tb)
    /\ ReturnsVia (_containerName self req file) tc containerName
    /\ ReturnsVia (_blobName self req file) tb blobName.

(** What lines 148-154 resolve, along the calls [t]. *)
Definition Resolved (self : MulterAzureStorage) (req : Request) (file : File)
    (t : list (Event Call)) (containerName blobName : string)
    (settings : MASContentSettings) (metadata : option MASMetadata) : Prop :=
  exists tn ts tm,
    t = tn ++ (awaited <$> ts) ++ (awaited <$> tm)
    /\ ResolvedNames self req file tn containerName blobName
    /\ match _contentSettings self with
       | Some resolver => ReturnsVia (resolver req file) ts settings
       | None => ts = [] /\ settings = default_settings file
       end
    /\ match _metadata self with
       | Some resolver =>
           exists m, ReturnsVia (resolver req file) tm m /\ metadata = Some m
       | None => tm = [] /\ metadata = None
       end.

(** The successful container creation of line 198, when enabled. *)
Definition creation_events (self : MulterAzureStorage) (containerName : string)
    : list (Event Call) :=
  if _autoCreateContainer self then
    [Ev (Sdk (Azure.createIfNotExists
                (Azure.getContainerClient (_blobServiceClient self) containerName)
                {| Azure.access := publicAccessLevel self |})) (inr tt)]
  else [].

Definition upload_options (settings : MASContentSettings) (metadata : option MASMetadata)
    : Azure.BlockBlobUploadStreamOptions :=
  {| Azure.metadata := metadata; Azure.blobHTTPHeaders := headers_of settings |}.

(** The clock read and the expiry of line 171. *)
Definition Expiry (self : MulterAzureStorage) (t : list (Event Call))
    (expiresOn : option Azure.Date) : Prop :=
  match _urlExpirationTime self with
  | Some minutes =>
      if truthy minutes then
        exists now,
          t = [Ev (Runtime DateNow) (inr now)]
          /\ expiresOn = Some (minutes_after now minutes)
      else t = [] /\ expiresOn = None
  | None => t = [] /\ expiresOn = None
  end.

(** The calls of a store that has come to upload. *)
Definition upload_history (self : MulterAzureStorage) (req : Request) (file : File)
    (h : list (Event Call)) (containerName blobName : string)
    (settings : MASContentSettings) (metadata : option MASMetadata) : Prop :=
  exists t,
    Resolved self req file t containerName blobName settings metadata
    /\ h = t ++ creation_events self containerName.

(** Where a store makes each call to the SDK, and with what. *)
Definition store_protocol (self : MulterAzureStorage) (req : Request) (file : File)
    : CallSpec Call :=
  fun h ev =>
    match ev with
    | Ev (Runtime _) _ => True
    | Ev (Sdk call) _ =>
        exists containerName blobName settings metadata,
          let client := blob_client self containerName blobName in
          let uploaded :=
            Ev (Sdk (Azure.uploadStream client (stream file) None None
                       (upload_options settings metadata))) (inr tt) in
          match call with
          | Azure.createIfNotExists container options =>
              _autoCreateContainer self = true
              /\ container = Azure.containerClient client
              /\ options = {| Azure.access := publicAccessLevel self |}
              /\ Resolved self req file h containerName blobName settings metadata
          | Azure.uploadStream client' s bufferSize maxConcurrency options =>
              client' = client /\ s = stream file
              /\ bufferSize = None /\ maxConcurrency = None
              /\ options = upload_options settings metadata
              /\ upload_history self req file h containerName blobName settings metadata
          | Azure.getProperties client' =>
              client' = client
              /\ exists h',
                   upload_history self req file h' containerName blobName
                     settings metadata
                   /\ h = h' ++ [uploaded]
          | Azure.generateSasUrl client' options =>
              client' = client
              /\ exists h' blobProperties t,
                   upload_history self req file h' containerName blobName
                     settings metadata
                   /\ Expiry self t (Azure.expiresOn options)
                   /\ Azure.permissions options = read_only
                   /\ h = h' ++ [uploaded;
                                 Ev (Sdk (Azure.getProperties client))
                                   (inr blobProperties)] ++ t
          | Azure.deleteIfExists _ => False
          end
    end.

(** The calls and the descriptor of a store that returns. *)
Definition store_returns (self : MulterAzureStorage) (req : Request) (file : File)
    (t : list (Event Call)) (out : MulterOutFile) : Prop :=
  exists containerName blobName settings metadata h blobProperties te expiresOn sasUrl,
    let client := blob_client self containerName blobName in
    upload_history self req file h containerName blobName settings metadata
    /\ Expiry self te expiresOn
    /\ t = h ++ [Ev (Sdk (Azure.uploadStream client (stream file) None None
                            (upload_options settings metadata))) (inr tt);
                 Ev (Sdk (Azure.getProperties client)) (inr blobProperties)]
           ++ te
           ++ [Ev (Sdk (Azure.generateSasUrl client
                          {| Azure.expiresOn := expiresOn;
                             Azure.permissions := read_only |})) (inr sasUrl)]
    /\ out = descriptor file containerName blobName sasUrl blobProperties.

(** Where a removal makes each call to the SDK, and with what. *)
Definition remove_protocol (self : MulterAzureStorage) (req : Request) (file : File)
    : CallSpec Call :=
  fun h ev =>
    match ev with
    | Ev (Runtime _) _ => True
    | Ev (Sdk call) _ =>
        exists containerName blobName,
          let client := blob_client self containerName blobName in
          match call with
          | Azure.createIfNotExists container options =>
              _autoCreateContainer self = true
              /\ container = Azure.containerClient client
              /\ options = {| Azure.access := publicAccessLevel self |}
              /\ ResolvedNames self req file h containerName blobName
          | Azure.deleteIfExists client' =>
              client' = client
              /\ exists t,
                   ResolvedNames self req file t containerName blobName
                   /\ h = t ++ creation_events self containerName
          | _ => False
          end
    end.

(** The calls of a removal that returns. *)
Definition remove_returns (self : MulterAzureStorage) (req : Request) (file : File)
    (t : list (Event Call)) : Prop :=
  exists containerName blobName tn,
    ResolvedNames self req file tn containerName blobName
    /\ t = tn ++ creation_events self containerName
           ++ [Ev (Sdk (Azure.deleteIfExists (blob_client self containerName blobName)))
                 (inr tt)].

(** ** Runs, replayed *)

(** The world after the calls [t], made again from [w]. *)
Definition replay {E : Type -> Type} {W : Type}
    (handler : forall R, E R -> W -> (JsError + R) * W)
    (t : list (Event E)) (w : W) : W :=
  foldl (fun w ev => match ev with Ev c _ => (handler _ c w).2 end) w t.

(** The call of [ev], made in the world [w], is answered as in [ev]. *)
Definition answered {E : Type -> Type} {W : Type}
    (handler : forall R, E R -> W -> (JsError + R) * W)
    (ev : Event E) (w : W) : Prop :=
  match ev with
  | Ev c r => (handler _ c w).1 = r
  end.

(** The blob of a name in a container of a name, if there is one. *)
Definition blob_at (w : World) (containerName blobName : string) : option Blob :=
  containers w !! containerName ≫= fun container => blobs container !! blobName.

Definition fetch_of (ev : Event Call) : option Azure.BlockBlobClient :=
  match ev with
  | Ev (Sdk (Azure.getProperties client)) _ => Some client
  | _ => None
  end.

Definition fetches (t : list (Event Call)) := omap fetch_of t.

(** ** Further example data *)

(** The adapter that [new MulterAzureStorage(options)] gives under an
    environment, for options that are accepted. *)
Definition adapter_in (options : IMASOptions) (env : gmap string string)
    : MulterAzureStorage :=
  match constructor client_factory options env with
  | inr self => self
  | inl _ => dev_adapter
  end.

Definition adapter_of (options : IMASOptions) : MulterAzureStorage :=
  adapter_in options ∅.

(** [{connectionString: "UseDevelopmentStorage=true", containerName: "uploads",
      contentSettings: {cacheControl: "max-age=3600", contentType: "image/webp"},
      metadata: {owner: "alice"}, blobName: (req, file) => file.originalname}] *)
Definition static_options : IMASOptions :=
  {| accessKey := None; accountName := None;
     connectionString := Some "UseDevelopmentStorage=true";
     urlExpirationTime := None;
     blobName := Some (fun _ file => Ret (originalname file));
     containerName := Some (Static "uploads");
     autoCreateContainer := None;
     metadata := Some (Static {[ "owner" := "alice" ]});
     contentSettings :=
       Some (Static {| cacheControl := Some "max-age=3600";
                       contentType := Some "image/webp";
                       contentMD5 := None;
                       contentEncoding := None;
                       contentLanguage := None;
                       contentDisposition := None |});
     containerAccessLevel := None |}.

Definition static_adapter : MulterAzureStorage := adapter_of static_options.

Definition static_blob : Azure.BlockBlobClient :=
  Azure.getBlockBlobClient dev_container "photo.png".

Definition static_descriptor : MulterOutFile :=
  descriptor photo "uploads" "photo.png"
    "/uploads/photo.png?sp=r&se=1700003600000&sig=signature"
    {| Azure.etag := Some "0x1";
       Azure.metadata_of := Some {[ "owner" := "alice" ]};
       Azure.blobType := Some "BlockBlob";
       Azure.contentLength := Some 4 |}.

Definition static_upload_options : Azure.BlockBlobUploadStreamOptions :=
  {| Azure.metadata := Some {[ "owner" := "alice" ]};
     Azure.blobHTTPHeaders :=
       {| Azure.blobCacheControl := Some "max-age=3600";
          Azure.blobContentType := Some "image/webp";
          Azure.blobContentMD5 := None;
          Azure.blobContentEncoding := None;
          Azure.blobContentLanguage := None;
          Azure.blobContentDisposition := None |} |}.

(** The same with [metadata: {}]. *)
Definition empty_metadata_options : IMASOptions :=
  {| accessKey := None; accountName := None;
     connectionString := Some "UseDevelopmentStorage=true";
     urlExpirationTime := None;
     blobName := Some (fun _ file => Ret (originalname file));
     containerName := Some (Static "uploads");
     autoCreateContainer := None;
     metadata := Some (Static ∅);
     contentSettings := None;
     containerAccessLevel := None |}.

(** [{connectionString: "UseDevelopmentStorage=true", containerName: "uploads",
      autoCreateContainer: false}] *)
Definition no_create_options : IMASOptions :=
  {| accessKey := None; accountName := None;
     connectionString := Some "UseDevelopmentStorage=true";
     urlExpirationTime := None; blobName := None;
     containerName := Some (Static "uploads");
     autoCreateContainer := Some false; metadata := None; contentSettings := None;
     containerAccessLevel := None |}.

Definition no_create_adapter : MulterAzureStorage := adapter_of no_create_options.

(** [urlExpirationTime: NaN] *)
Definition nan_options : IMASOptions := dev_options_with (Some (IsNumber NaN)) None.

Definition nan_adapter : MulterAzureStorage := adapter_of nan_options.

Definition nan_sas_options : Azure.BlobGenerateSasUrlOptions :=
  {| Azure.expiresOn := None; Azure.permissions := read_only |}.

(** [{connectionString: "UseDevelopmentStorage=true", accountName: "acct",
      accessKey: "a2V5", containerName: "uploads"}] under an environment that
    sets all three variables. *)
Definition all_credentials_options : IMASOptions :=
  {| accessKey := Some "a2V5"; accountName := Some "acct";
     connectionString := Some "UseDevelopmentStorage=true";
     urlExpirationTime := None; blobName := None;
     containerName := Some (Static "uploads");
     autoCreateContainer := None; metadata := None; contentSettings := None;
     containerAccessLevel := None |}.

Definition full_env : gmap string string :=
  {[ "AZURE_STORAGE_CONNECTION_STRING" := "BlobEndpoint=https://env.example;SharedAccessSignature=sv";
     "AZURE_STORAGE_ACCOUNT" := "envacct";
     "AZURE_STORAGE_ACCESS_KEY" := "ZW52" ]}.

(** An account holding the container [uploads] with the blob [photo.png]. *)
Definition w1 : World :=
  {| clock := 1700000000000;
     uuids := ["9b1deb4d-3b7d-4bad-9bdd-2b0d7b3dcb6d"];
     containers :=
       {[ "uploads" :=
            {| publicAccess := None;
               blobs := {[ "photo.png" :=
                             {| content := [Byte.x00];
                                headers := default_headers photo;
                                blob_metadata := None |} ]} |} ]} |}.

(** A callback that returns, and one that throws when handed a file. *)
Definition accepting {I} (args : I) (w : World) : (JsError + unit) * World :=
  (inr tt, w).

Definition throwing_on_info (args : HandleFileCallback) (w : World)
    : (JsError + unit) * World :=
  match args with
  | HandleFileInfo _ => (inl (Error "callback failed"), w)
  | HandleFileError _ => (inr tt, w)
  end.

(** * Part II: lemmas *)

(** ** The runtime of the examples *)

Example extname_html : Path.extname "index.html" = ".html".
Proof. reflexivity. Qed.

Example extname_md : Path.extname "index.coffee.md" = ".md".
Proof. reflexivity. Qed.

Example extname_dot : Path.extname "index." = ".".
Proof. reflexivity. Qed.

Example extname_none : Path.extname "index" = "".
Proof. reflexivity. Qed.

Example extname_hidden : Path.extname ".index" = "".
Proof. reflexivity. Qed.

Example extname_hidden_md : Path.extname ".index.md" = ".md".
Proof. reflexivity. Qed.

Example extname_dir : Path.extname "a.b/c" = "".
Proof. reflexivity. Qed.

Example extname_dotdot : Path.extname ".." = "".
Proof. reflexivity. Qed.

Example extname_slash : Path.extname "dir/photo.png/" = ".png".
Proof. reflexivity. Qed.

(** ** Whole doubles and dates *)

Lemma round53_safe z : Z.abs z < 2 ^ 53 -> round53 z = z.
Proof. intros Hz. unfold round53. by rewrite bool_decide_true. Qed.

Lemma double_safe z : Z.abs z < 2 ^ 53 -> double z = Num z.
Proof.
  intros Hz. unfold double. rewrite round53_safe by done.
  rewrite bool_decide_false; [done|].
  assert (2 ^ 53 < 2 ^ 1024) by (apply Z.pow_lt_mono_r; lia). lia.
Qed.

Lemma round53_large z : 2 ^ 53 <= z -> 2 ^ 53 <= round53 z.
Proof.
  intros Hz. unfold round53.
  rewrite bool_decide_false by lia.
  assert (Z.abs z = z) as -> by lia.
  assert (Z.sgn z = 1) as -> by (apply Z.sgn_pos; lia).
  rewrite Z.mul_1_l.
  assert (53 <= Z.log2 z) as Hlog by (apply Z.log2_le_pow2; lia).
  set (e := Z.log2 z - 52).
  assert (0 < 2 ^ e) as Hpos by (apply Z.pow_pos_nonneg; lia).
  assert (2 ^ 52 <= z / 2 ^ e) as Hq.
  { apply Z.div_le_lower_bound; [done|].
    rewrite Z.mul_comm, <- Z.pow_add_r by lia.
    replace (52 + e) with (Z.log2 z) by lia.
    apply Z.log2_spec. lia. }
  assert (2 <= 2 ^ e) as He.
  { change 2 with (2 ^ 1) at 1. apply Z.pow_le_mono_r; lia. }
  change (2 ^ 53) with (2 ^ 52 * 2).
  destruct (if bool_decide _ then _ else _); nia.
Qed.

Lemma double_large z : 2 ^ 53 <= z -> beyond_safe (double z).
Proof.
  intros Hz. unfold double. case_bool_decide; simpl.
  - by rewrite bool_decide_false by lia.
  - by apply round53_large.
Qed.

Lemma MAX_TIME_safe : Azure.MAX_TIME < 2 ^ 53.
Proof. reflexivity. Qed.

Lemma new_Date_beyond_safe x :
  beyond_safe x -> Azure.new_Date x = {| Azure.getTime := NaN |}.
Proof.
  pose proof MAX_TIME_safe. destruct x as [|r|negative]; simpl; [done| |done].
  intros Hr. unfold Azure.new_Date. rewrite bool_decide_false; [done|]. lia.
Qed.

Lemma num_add_beyond_safe now x :
  0 <= now -> beyond_safe x -> beyond_safe (num_add (Num now) x).
Proof.
  intros Hnow. destruct x as [|r|negative]; simpl; [done| |done].
  intros Hr. apply double_large. lia.
Qed.

Lemma num_mul_beyond_safe x k :
  0 < k -> beyond_safe x -> beyond_safe (num_mul x (Num k)).
Proof.
  intros Hk. destruct x as [|r|negative]; simpl; [done| |].
  - intros Hr. apply double_large. nia.
  - intros ->. rewrite bool_decide_false by lia. simpl.
    by rewrite bool_decide_false by lia.
Qed.

Lemma minutes_after_in_range now n :
  0 <= now -> 0 < n -> now + n * 60 * 1000 <= Azure.MAX_TIME ->
  minutes_after now (Num n) = {| Azure.getTime := Num (now + n * 60 * 1000) |}.
Proof.
  intros Hnow Hn Hmax. pose proof MAX_TIME_safe as Hsafe.
  unfold minutes_after, num_mul, num_add.
  rewrite (double_safe (n * 60)) by lia.
  rewrite (double_safe (n * 60 * 1000)) by lia.
  rewrite (double_safe (now + n * 60 * 1000)) by lia.
  unfold Azure.new_Date. rewrite bool_decide_true; [done|].
  unfold Azure.MAX_TIME in *. lia.
Qed.

Lemma minutes_after_out_of_range now n :
  0 <= now -> 0 < n -> Azure.MAX_TIME < now + n * 60 * 1000 ->
  minutes_after now (Num n) = {| Azure.getTime := NaN |}.
Proof.
  intros Hnow Hn Hmax. pose proof MAX_TIME_safe as Hsafe.
  unfold minutes_after.
  destruct (decide (n * 60 * 1000 < 2 ^ 53)) as [Hp|Hp].
  - unfold num_mul.
    rewrite (double_safe (n * 60)) by lia.
    rewrite (double_safe (n * 60 * 1000)) by lia.
    destruct (decide (now + n * 60 * 1000 < 2 ^ 53)) as [Hs|Hs].
    + unfold num_add. rewrite double_safe by lia.
      unfold Azure.new_Date. rewrite bool_decide_false; [done|]. lia.
    + apply new_Date_beyond_safe. unfold num_add. apply double_large. lia.
  - apply new_Date_beyond_safe, num_add_beyond_safe; [done|].
    destruct (decide (n * 60 < 2 ^ 53)) as [Hq|Hq].
    + unfold num_mul. rewrite (double_safe (n * 60)) by lia.
      apply double_large. lia.
    + apply num_mul_beyond_safe; [lia|]. unfold num_mul. apply double_large. lia.
Qed.

Lemma minutes_after_Infinity now :
  minutes_after now (Infinity false) = {| Azure.getTime := NaN |}.
Proof. reflexivity. Qed.

(** ** The logic of calls *)

Section Logic.
Context {E : Type -> Type}.

Lemma Meets_bind {A B} (P : CallSpec E) (Q1 : list (Event E) -> A -> Prop)
    (Q : list (Event E) -> B -> Prop) h (p : Prog E A) (f : A -> Prog E B) :
  Meets P Q1 h p ->
  (forall h' a, Q1 h' a -> Meets P Q h' (f a)) ->
  Meets P Q h (bind p f).
Proof.
  intros Hp Hf. induction Hp as [h a Ha|h e|h R c k Hc _ IH]; simpl.
  - by apply Hf.
  - constructor.
  - constructor; [done|]. intros x. apply IH.
Qed.

Lemma Meets_mbind {A B} (P : CallSpec E) (Q1 : list (Event E) -> A -> Prop)
    (Q : list (Event E) -> B -> Prop) h (p : Prog E A) (f : A -> Prog E B) :
  Meets P Q1 h p ->
  (forall h' a, Q1 h' a -> Meets P Q h' (f a)) ->
  Meets P Q h (p ≫= f).
Proof. apply Meets_bind. Qed.

Lemma Meets_mret {A} (P : CallSpec E) (Q : list (Event E) -> A -> Prop) h (a : A) :
  Q h a -> Meets P Q h (mret a).
Proof. by constructor. Qed.

Lemma Meets_call {R} (P : CallSpec E) (Q : list (Event E) -> R -> Prop) h (c : E R) :
  (forall r, P h (Ev c r)) ->
  (forall x, Q (h ++ [Ev c (inr x)]) x) ->
  Meets P Q h (call c).
Proof. intros Hc HQ. constructor; [done|]. intros x. constructor. apply HQ. Qed.

Lemma Meets_consequence {A} (P : CallSpec E) (Q Q' : list (Event E) -> A -> Prop)
    h (p : Prog E A) :
  Meets P Q h p ->
  (forall h' a, Q h' a -> Q' h' a) ->
  Meets P Q' h p.
Proof. intros Hp HQ. induction Hp; constructor; auto. Qed.

Section Soundness.
Context {W : Type} (handler : forall R, E R -> W -> (JsError + R) * W).

(** Every call of a run is allowed where it is made, and the outcome of a
    run that returns meets the postcondition. *)
Lemma Meets_sound {A} (P : CallSpec E) (Q : list (Event E) -> A -> Prop) h
    (p : Prog E A) w :
  Meets P Q h p ->
  (forall pre ev post,
      trace handler p w = pre ++ ev :: post -> P (h ++ pre) ev)
  /\ (forall a, outcome handler p w = inr a -> Q (h ++ trace handler p w) a).
Proof.
  unfold trace, outcome. intros Hp. revert w.
  induction Hp as [h a Ha|h e|h R c k Hc Hk IH]; intros w; simpl.
  - split.
    + intros [|] ???; discriminate.
    + intros ? [= <-]. by rewrite app_nil_r.
  - split.
    + intros [|] ???; discriminate.
    + discriminate.
  - destruct (handler R c w) as [[e|x] w1] eqn:Hh; simpl.
    + split; [|discriminate].
      intros [|ev' pre] ev post Heq; simpl in Heq.
      * injection Heq as <- _. rewrite app_nil_r. apply Hc.
      * injection Heq as _ Heq. by destruct pre.
    + specialize (IH x w1).
      destruct (run handler (k x) w1) as [[o w2] t] eqn:Hrun; simpl in *.
      destruct IH as [IHc IHq]. split.
      * intros [|ev' pre] ev post Heq; simpl in Heq.
        -- injection Heq as <- _. rewrite app_nil_r. apply Hc.
        -- injection Heq as <- Heq. rewrite cons_middle, (assoc_L (++)).
           by eapply IHc.
      * intros a ->. rewrite cons_middle, (assoc_L (++)). by apply IHq.
Qed.

Lemma run_bind {A B} (p : Prog E A) (f : A -> Prog E B) w :
  run handler (bind p f) w =
    match run handler p w with
    | (inl e, w1, t) => (inl e, w1, t)
    | (inr a, w1, t) =>
        let '(o, w2, t') := run handler (f a) w1 in (o, w2, t ++ t')
    end.
Proof.
  revert w. induction p as [a|e|R c k IH]; intros w; simpl.
  - by destruct (run handler (f a) w) as [[??]?].
  - done.
  - destruct (handler R c w) as [[e|x] w1]; [done|].
    rewrite IH. destruct (run handler (k x) w1) as [[[e|a] w2] t]; [done|].
    by destruct (run handler (f a) w2) as [[??]?].
Qed.

Lemma run_mbind {A B} (p : Prog E A) (f : A -> Prog E B) w :
  run handler (p ≫= f) w =
    match run handler p w with
    | (inl e, w1, t) => (inl e, w1, t)
    | (inr a, w1, t) =>
        let '(o, w2, t') := run handler (f a) w1 in (o, w2, t ++ t')
    end.
Proof. apply run_bind. Qed.

End Soundness.
End Logic.

(** A resolver only makes runtime calls. *)
Lemma Meets_await {A} (P : CallSpec Call) h (p : Prog RuntimeCall A) :
  (forall h' R (c : RuntimeCall R) r, P h' (Ev (Runtime c) r)) ->
  Meets P (fun _ _ => True) h (await p).
Proof.
  intros HP. revert h. induction p as [a|e|R c k IH]; intros h; simpl.
  - by constructor.
  - constructor.
  - constructor; [intros; apply HP|]. intros x. apply IH.
Qed.

Lemma await_no_sdk_calls {W A B} (handler : forall R, Call R -> W -> (JsError + R) * W)
    (observe : Event Call -> option B) (p : Prog RuntimeCall A) w :
  (forall R (c : RuntimeCall R) r, observe (Ev (Runtime c) r) = None) ->
  omap observe (trace handler (await p) w) = [].
Proof.
  intros Hobs. unfold trace, await. revert w.
  induction p as [a|e|R c k IH]; intros w; simpl; [done..|].
  destruct (handler R (Runtime c) w) as [[e|x] w1]; simpl.
  - by rewrite Hobs.
  - specialize (IH x w1).
    destruct (run handler (translate _ (k x)) w1) as [[o w2] t]; simpl in *.
    by rewrite Hobs.
Qed.

(** ** Construction *)

Lemma truthy_or_null_js_or {A} `{Truthy A} (a b : option A) :
  truthy (or_null (js_or a b)) = truthy a || truthy b.
Proof.
  unfold or_null, js_or.
  destruct (truthy a) eqn:Ha; simpl; [by rewrite Ha|].
  by destruct (truthy b) eqn:Hb; simpl; rewrite ?Hb.
Qed.

Lemma truthy_is_Some {A} `{Truthy A} (a : option A) :
  truthy a = true -> is_Some a.
Proof. destruct a; [eauto|discriminate]. Qed.

Lemma resolveConnection_None options env :
  resolveConnection options env = None <-> credential_available options env = false.
Proof.
  unfold resolveConnection, credential_available, available.
  rewrite !truthy_or_null_js_or.
  set (cs := or_null (js_or (connectionString options) _)).
  set (ak := or_null (js_or (accessKey options) _)).
  set (an := or_null (js_or (accountName options) _)).
  pose proof (truthy_or_null_js_or (connectionString options)
                (env !! "AZURE_STORAGE_CONNECTION_STRING")) as Hcs.
  pose proof (truthy_or_null_js_or (accessKey options)
                (env !! "AZURE_STORAGE_ACCESS_KEY")) as Hak.
  pose proof (truthy_or_null_js_or (accountName options)
                (env !! "AZURE_STORAGE_ACCOUNT")) as Han.
  fold cs in Hcs. fold ak in Hak. fold an in Han.
  rewrite <- Hcs, <- Hak, <- Han.
  destruct (truthy cs) eqn:Tcs; simpl.
  - destruct (truthy_is_Some _ Tcs) as [s ->]. simpl. split; discriminate.
  - destruct (truthy ak) eqn:Tak; simpl.
    + destruct (truthy an) eqn:Tan; simpl.
      * destruct (truthy_is_Some _ Tak) as [k ->].
        destruct (truthy_is_Some _ Tan) as [n ->]. simpl. split; discriminate.
      * done.
    + by rewrite andb_false_r.
Qed.

(** An adapter is constructed when construction with a factory that makes
    every client gives it and the factory at hand makes its client. *)
Lemma constructor_made sdk options env self :
  constructor sdk options env = inr self ->
  constructor (fun _ => None) options env = inr self
  /\ sdk (_blobServiceClient self) = None.
Proof.
  unfold constructor.
  destruct (resolveConnection options env) as [connection|]; [|discriminate].
  destruct (containerName options) as [cn|]; [|discriminate].
  destruct (truthy cn); simpl; [|discriminate].
  destruct (sdk (blobServiceClient_of options connection)) eqn:Hsdk; [discriminate|].
  by intros [= <-].
Qed.

Lemma credential_available_true options env connection :
  resolveConnection options env = Some connection ->
  credential_available options env = true.
Proof.
  intros Hconn. destruct (credential_available options env) eqn:Hc; [done|].
  apply resolveConnection_None in Hc. congruence.
Qed.

Lemma client_factory_foreign : foreign_errors client_factory.
Proof.
  intros [s|url credential] e; simpl; [|discriminate].
  destruct (_ || _); [discriminate|]. intros [= <-] [|]; discriminate.
Qed.

(** C1, as the code has it.  Construction throws the missing-credentials
    error when no credential is available (no connection string, and not
    both an account name and an access key, from the options or the
    environment), and the missing-container-name error when a credential is
    available and no container-name source is supplied.  With both, it asks
    the SDK for the client: it throws what the SDK throws, and otherwise
    yields an adapter with that client.  So, the errors of the SDK being
    its own, construction throws a configuration error exactly in the two
    cases of the claim; and it succeeds in every other case when the SDK
    makes every client. *)
Theorem constructor_throws_iff (sdk : Azure.ClientFactory) (options : IMASOptions)
    (env : gmap string string) :
  (credential_available options env = false ->
   constructor sdk options env = inl MISSING_CREDENTIALS)
  /\ (credential_available options env = true ->
      container_name_supplied options = false ->
      constructor sdk options env = inl MISSING_CONTAINER_NAME)
  /\ (credential_available options env = true ->
      container_name_supplied options = true ->
      exists connection,
        resolveConnection options env = Some connection
        /\ match sdk (blobServiceClient_of options connection) with
           | Some e => constructor sdk options env = inl e
           | None =>
               exists self,
                 constructor sdk options env = inr self
                 /\ _blobServiceClient self = blobServiceClient_of options connection
           end)
  /\ (foreign_errors sdk ->
      ((exists e, constructor sdk options env = inl e /\ ConfigurationError e)
       <-> credential_available options env = false
           \/ container_name_supplied options = false))
  /\ ((forall client, sdk client = None) ->
      ((exists e, constructor sdk options env = inl e)
       <-> credential_available options env = false
           \/ container_name_supplied options = false)
      /\ (forall e, constructor sdk options env = inl e -> ConfigurationError e)
      /\ (credential_available options env = true
          /\ container_name_supplied options = true
          -> exists self, constructor sdk options env = inr self)).
Proof.
  pose proof (resolveConnection_None options env) as Hnone.
  pose proof (credential_available_true options env) as Hsome.
  unfold constructor, container_name_supplied, foreign_errors, ConfigurationError.
  destruct (resolveConnection options env) as [connection|].
  - rewrite (Hsome connection eq_refl). clear Hnone Hsome.
    destruct (containerName options) as [name|]; simpl.
    + change (truthy (Some name)) with (truthy name).
      destruct (truthy name); simpl.
      * split; [discriminate|]. split; [discriminate|].
        split; [intros _ _; exists connection; split; [done|];
                destruct (sdk _); eauto|].
        split.
        -- intros Hforeign. split; [|intros [?|?]; discriminate].
           intros (e & Hthrown & Herror).
           destruct (sdk _) as [e'|] eqn:Hsdk; [|discriminate].
           injection Hthrown as ->. by destruct (Hforeign _ _ Hsdk).
        -- intros Hmakes. rewrite Hmakes.
           split; [|split]; [|discriminate|eauto].
           split; [intros [? ?]; discriminate|intros [?|?]; discriminate].
      * split; [discriminate|]. split; [done|]. split; [discriminate|].
        split; [intros _; split; eauto|].
        intros _. split; [|split]; [|intros ? [= <-]; by right|intros [_ ?]; discriminate].
        split; eauto.
    + split; [discriminate|]. split; [done|]. split; [discriminate|].
      split; [intros _; split; eauto|].
      intros _. split; [|split]; [|intros ? [= <-]; by right|intros [_ ?]; discriminate].
      split; eauto.
  - rewrite (proj1 Hnone eq_refl).
    split; [done|]. split; [discriminate|]. split; [discriminate|].
    split; [intros _; split; eauto|].
    intros _. split; [|split]; [|intros ? [= <-]; by left|intros [? _]; discriminate].
    split; eauto.
Qed.

(** C1 as stated fails: the connection string ["garbage"] is a credential
    and a container name is supplied, and still construction throws: the
    error of the SDK, which is not a configuration error. *)
Lemma constructor_throws_on_garbage :
  credential_available garbage_options ∅ = true
  /\ container_name_supplied garbage_options = true
  /\ constructor client_factory garbage_options ∅ = inl (TypeError "Invalid URL")
  /\ ~ ConfigurationError (TypeError "Invalid URL")
  /\ ~ (exists self, constructor client_factory garbage_options ∅ = inr self).
Proof.
  split; [reflexivity|]. split; [reflexivity|]. split; [reflexivity|]. split.
  - intros [|]; discriminate.
  - intros [self Hself]. discriminate Hself.
Qed.

Lemma constructor_throws_iff_witness :
  (exists self,
      constructor client_factory dev_options ∅ = inr self
      /\ _blobServiceClient self = Azure.fromConnectionString "UseDevelopmentStorage=true")
  /\ constructor client_factory garbage_options ∅ = inl (TypeError "Invalid URL")
  /\ constructor client_factory key_only_options ∅ = inl MISSING_CREDENTIALS
  /\ constructor client_factory empty_container_name_options ∅
     = inl MISSING_CONTAINER_NAME.
Proof.
  split; [|split; [|split]].
  - destruct (constructor_throws_iff client_factory dev_options ∅)
      as (_ & _ & Hclient & _).
    destruct (Hclient eq_refl eq_refl) as (connection & Hconnection & Hmade).
    injection Hconnection as <-. exact Hmade.
  - destruct (constructor_throws_iff client_factory garbage_options ∅)
      as (_ & _ & Hclient & _).
    destruct (Hclient eq_refl eq_refl) as (connection & Hconnection & Hthrown).
    injection Hconnection as <-. exact Hthrown.
  - destruct (constructor_throws_iff client_factory key_only_options ∅)
      as (Hcredentials & _).
    exact (Hcredentials eq_refl).
  - destruct (constructor_throws_iff client_factory empty_container_name_options ∅)
      as (_ & Hname & _).
    exact (Hname eq_refl eq_refl).
Defined.

(** An access key alone is no credential, nor is it one with an empty
    account name; an empty container name is no container name. *)
Example constructor_missing_parameter :
  constructor client_factory key_only_options ∅ = inl MISSING_CREDENTIALS
  /\ constructor client_factory key_only_options {["AZURE_STORAGE_ACCOUNT" := ""]}
     = inl MISSING_CREDENTIALS
  /\ constructor client_factory empty_container_name_options ∅
     = inl MISSING_CONTAINER_NAME.
Proof. split; [|split]; reflexivity. Qed.

(** With a shared key, the service URL is built from [options.accountName]
    (line 131), whatever account name the credential carries. *)
Lemma constructor_shared_key_url sdk options env self name key :
  constructor sdk options env = inr self ->
  resolveConnection options env = Some (SharedKey name key) ->
  _blobServiceClient self =
    Azure.new ("https://" +:+ template (accountName options) +:+ ".blob.core.windows.net")
      {| Azure.accountName := name; Azure.accountKey := key |}.
Proof.
  intros [Hc _]%constructor_made Hr. unfold constructor in Hc. rewrite Hr in Hc.
  destruct (containerName options) as [cn|]; [|discriminate].
  destruct (truthy cn); simpl in Hc; [|discriminate].
  by injection Hc as <-.
Qed.

(** C2.  With the account name only in [AZURE_STORAGE_ACCOUNT], construction
    succeeds and the credential carries the account, but the client is
    addressed to [https://undefined.blob.core.windows.net]; the same account
    passed in the options gives [https://acct.blob.core.windows.net]. *)
Theorem constructor_account_from_environment :
  (exists self,
      constructor client_factory key_only_options {["AZURE_STORAGE_ACCOUNT" := "acct"]}
      = inr self
      /\ _blobServiceClient self =
           Azure.new "https://undefined.blob.core.windows.net"
             {| Azure.accountName := "acct"; Azure.accountKey := "a2V5" |})
  /\ (exists self,
         constructor client_factory key_and_account_options ∅ = inr self
         /\ _blobServiceClient self =
              Azure.new "https://acct.blob.core.windows.net"
                {| Azure.accountName := "acct"; Azure.accountKey := "a2V5" |}).
Proof. split; eexists; split; reflexivity. Qed.

(** C8.  Lifting a static value gives a resolver that resolves to exactly
    that value for every request and file, without any call; lifting a
    function gives back the function.  The resolvers of an adapter built
    from static container name, metadata or content settings are these
    lifted values. *)
Theorem promisifyOption_identity_wrap :
  (forall T (v : T) req file, promisifyOption (Static v) req file = Ret v)
  /\ (forall T (f : MASResolverFunction T), promisifyOption (Resolver f) = f)
  /\ (forall sdk options env self,
         constructor sdk options env = inr self ->
         (forall v, containerName options = Some (Static v) ->
                    forall req file, _containerName self req file = Ret v)
         /\ (forall v, metadata options = Some (Static v) ->
                       exists resolver, _metadata self = Some resolver
                         /\ forall req file, resolver req file = Ret v)
         /\ (forall v, contentSettings options = Some (Static v) ->
                       exists resolver, _contentSettings self = Some resolver
                         /\ forall req file, resolver req file = Ret v)
         /\ (forall f, containerName options = Some (Resolver f) ->
                       _containerName self = f)
         /\ (forall f, metadata options = Some (Resolver f) ->
                       _metadata self = Some f)
         /\ (forall f, contentSettings options = Some (Resolver f) ->
                       _contentSettings self = Some f)).
Proof.
  split; [done|]. split; [done|].
  intros sdk options env self [Hself _]%constructor_made. revert Hself.
  unfold constructor.
  destruct (resolveConnection options env); [|discriminate].
  destruct (containerName options) as [cn|]; [|discriminate].
  destruct (truthy cn); simpl; [|discriminate].
  intros [= <-]; simpl.
  split_and!.
  - by intros v [= ->].
  - intros v ->. by eexists.
  - intros v ->. by eexists.
  - by intros f [= ->].
  - by intros f ->.
  - by intros f ->.
Qed.

(** The fields of a constructed adapter (lines 107-125). *)
Lemma constructor_fields sdk options env self :
  constructor sdk options env = inr self ->
  _containerAccessLevel self =
    nullish (containerAccessLevel options) DEFAULT_CONTAINER_ACCESS_LEVEL
  /\ _metadata self =
       (if truthy (metadata options) then promisifyOption <$> metadata options else None)
  /\ _contentSettings self =
       (if truthy (contentSettings options)
        then promisifyOption <$> contentSettings options else None)
  /\ _blobName self =
       (if truthy (blobName options)
        then default generateBlobName (blobName options) else generateBlobName)
  /\ _urlExpirationTime self = resolveUrlExpirationTime options
  /\ _autoCreateContainer self = nullish (autoCreateContainer options) true.
Proof.
  intros [Hself _]%constructor_made. revert Hself. unfold constructor.
  destruct (resolveConnection options env); [|discriminate].
  destruct (containerName options) as [cn|]; [|discriminate].
  destruct (truthy cn); simpl; [|discriminate].
  by intros [= <-].
Qed.

Example constructor_dev_options :
  constructor client_factory dev_options ∅ = inr dev_adapter.
Proof. reflexivity. Qed.

(** ** The calls of the operations *)

Lemma _getContainerClient_meets (P : CallSpec Call) self containerName h :
  (forall h' client options r,
      creation_spec self client options ->
      P h' (Ev (Sdk (Azure.createIfNotExists client options)) r)) ->
  Meets P
    (fun h' client =>
       client = Azure.getContainerClient (_blobServiceClient self) containerName
       /\ exists t, h' = h ++ t
            /\ (_autoCreateContainer self = true ->
                exists options,
                  t = [Ev (Sdk (Azure.createIfNotExists client options)) (inr tt)]))
    h (_getContainerClient self containerName).
Proof.
  intros HP. unfold _getContainerClient.
  destruct (_autoCreateContainer self) eqn:Hauto.
  - eapply Meets_mbind; [apply Meets_call with (Q := fun h' _ => exists options,
      h' = h ++ [Ev (Sdk (Azure.createIfNotExists
                    (Azure.getContainerClient (_blobServiceClient self) containerName)
                    options)) (inr tt)])|].
    + intros r. apply HP. split; [done|]. split; [done|].
      by destruct (_containerAccessLevel self).
    + intros []. eauto.
    + intros h' [] [options ->]. apply Meets_mret. split; [done|]. eauto.
  - eapply Meets_mbind; [apply Meets_mret with (Q := fun h' _ => h' = h); done|].
    intros h' [] ->. apply Meets_mret. split; [done|]. exists []. rewrite app_nil_r.
    split; [done|discriminate].
Qed.

Lemma expiresOn_of_meets (P : CallSpec Call) self h :
  (forall h' R (c : RuntimeCall R) r, P h' (Ev (Runtime c) r)) ->
  Meets P
    (fun h' expiresOn =>
       (exists t, h' = h ++ t)
       /\ forall permissions,
            expiry_spec self h'
              {| Azure.expiresOn := expiresOn; Azure.permissions := permissions |})
    h (expiresOn_of self).
Proof.
  intros HP. unfold expiresOn_of, expiry_spec.
  destruct (_urlExpirationTime self) as [minutes|].
  - destruct (truthy minutes).
    + eapply Meets_mbind; [apply Meets_call with (Q := fun h' now =>
        h' = h ++ [Ev (Runtime DateNow) (inr now)]); [intros; apply HP|done]|].
      intros h' now ->. apply Meets_mret. split; [eauto|]. intros ?. simpl. eauto.
    + apply Meets_mret. split; [|done]. exists []. by rewrite app_nil_r.
  - apply Meets_mret. split; [|done]. exists []. by rewrite app_nil_r.
Qed.

Lemma _handleFileAsync_meets self req file h :
  Meets (store_calls self file) (store_post self file) h
    (_handleFileAsync self req file).
Proof.
  unfold _handleFileAsync.
  eapply Meets_mbind; [by apply Meets_await|]. intros h1 containerName _.
  eapply Meets_mbind; [by apply Meets_await|]. intros h2 blobName _.
  eapply Meets_mbind with
    (Q1 := fun _ settings =>
             _contentSettings self = None ->
             settings = {| cacheControl := None; contentType := Some (mimetype file);
                           contentMD5 := None; contentEncoding := None;
                           contentLanguage := None;
                           contentDisposition := Some "inline" |}).
  { destruct (_contentSettings self) as [resolver|].
    - eapply Meets_consequence; [by apply Meets_await|]. discriminate.
    - by apply Meets_mret. }
  intros h3 settings Hsettings.
  eapply Meets_mbind with
    (Q1 := fun _ metadata => _metadata self = None -> metadata = None).
  { destruct (_metadata self) as [resolver|].
    - eapply Meets_mbind; [by apply Meets_await|].
      intros ???. apply Meets_mret. discriminate.
    - by apply Meets_mret. }
  intros h4 metadata Hmetadata.
  eapply Meets_mbind; [by apply _getContainerClient_meets|].
  intros h5 containerClient [-> _].
  set (client := Azure.getBlockBlobClient _ blobName).
  eapply Meets_mbind; [eapply Meets_call with (Q := fun h' _ =>
    exists options,
      h' = h5 ++ [Ev (Sdk (Azure.uploadStream client (stream file) None None options))
                     (inr tt)])|].
  { intros r. simpl. split_and!; try done.
    - intros Hnone. by rewrite (Hsettings Hnone).
    - intros Hnone. by rewrite (Hmetadata Hnone). }
  { intros []. eauto. }
  intros h6 [] [uploadOptions ->].
  eapply Meets_mbind; [eapply Meets_call with (Q := fun h' blobProperties =>
    h' = (h5 ++ [Ev (Sdk (Azure.uploadStream client (stream file) None None
                            uploadOptions)) (inr tt)])
         ++ [Ev (Sdk (Azure.getProperties client)) (inr blobProperties)]);
    by intros|].
  intros h7 blobProperties ->.
  eapply Meets_mbind; [by apply expiresOn_of_meets|].
  intros h8 expiresOn [[t ->] Hexpiry].
  eapply Meets_mbind; [eapply Meets_call with (Q := fun h' sasUrl =>
    exists options,
      h' = (((h5 ++ [Ev (Sdk (Azure.uploadStream client (stream file) None None
                               uploadOptions)) (inr tt)])
             ++ [Ev (Sdk (Azure.getProperties client)) (inr blobProperties)]) ++ t)
           ++ [Ev (Sdk (Azure.generateSasUrl client options)) (inr sasUrl)])|].
  { intros r. simpl. split; [done|]. apply Hexpiry. }
  { intros sasUrl. eauto. }
  intros h9 sasUrl [sasOptions ->]. apply Meets_mret.
  exists containerName, blobName, uploadOptions, blobProperties, sasOptions, sasUrl.
  simpl. fold client. split_and!; [| | |done].
  - rewrite !elem_of_app, !list_elem_of_singleton. tauto.
  - rewrite !elem_of_app, !list_elem_of_singleton. tauto.
  - rewrite !elem_of_app, !list_elem_of_singleton. tauto.
Qed.

Lemma _removeFileAsync_meets self req file h :
  Meets (remove_calls self) (fun _ _ => True) h (_removeFileAsync self req file).
Proof.
  unfold _removeFileAsync.
  eapply Meets_mbind; [by apply Meets_await|]. intros h1 containerName _.
  eapply Meets_mbind; [by apply Meets_await|]. intros h2 blobName _.
  eapply Meets_mbind; [by apply _getContainerClient_meets|].
  intros h3 containerClient [-> (t & -> & Hcreated)].
  apply Meets_call; [|done].
  intros r. simpl. split; [done|].
  intros Hauto. destruct (Hcreated Hauto) as [options ->]. eauto.
Qed.

Lemma spread_lookup file k :
  spread file !! k
  = if decide (k ∈ non_enumerable file) then None else fields file !! k.
Proof.
  unfold spread. apply option_eq. intros v. rewrite map_lookup_filter_Some. simpl.
  destruct (decide (k ∈ non_enumerable file));
    [split; [by intros [_ ?]|discriminate]|split; [by intros [? _]|by split]].
Qed.

Lemma spread_dom file : dom (spread file) = dom (fields file) ∖ non_enumerable file.
Proof.
  apply set_eq. intros k. rewrite elem_of_difference, !elem_of_dom, spread_lookup.
  destruct (decide (k ∈ non_enumerable file)); [|tauto].
  split; [by intros [? ?]|tauto].
Qed.

Lemma descriptor_dom file c b url props :
  dom (descriptor file c b url props) = added_fields ∪ dom (spread file).
Proof.
  unfold descriptor, added_fields. rewrite !dom_insert_L.
  apply set_eq. intros x. rewrite !elem_of_union. tauto.
Qed.

Lemma descriptor_frame file c b url props k :
  k ∉ added_fields ->
  descriptor file c b url props !! k = spread file !! k.
Proof.
  unfold descriptor, added_fields. intros Hk.
  rewrite !lookup_insert_ne; [done|set_solver..].
Qed.

Lemma descriptor_keeps file c b url props :
  non_enumerable file = ∅ ->
  dom (fields file) ## added_fields ->
  keeps_every_field file (descriptor file c b url props).
Proof.
  intros Hnone Hdisjoint k v Hk.
  assert (k ∉ added_fields) as Hadded.
  { intros Hin. apply (Hdisjoint k); [|done]. apply elem_of_dom. eauto. }
  rewrite descriptor_frame, spread_lookup by done.
  rewrite decide_False; [done|]. rewrite Hnone. set_solver.
Qed.

(** ** The store, against every handler *)

Section AnyHandler.
Context {W : Type} (handler : forall R, Call R -> W -> (JsError + R) * W).

Lemma store_calls_sound self req file w pre ev post :
  trace handler (_handleFileAsync self req file) w = pre ++ ev :: post ->
  store_calls self file pre ev.
Proof.
  intros Ht.
  by destruct (Meets_sound handler _ _ [] _ w (_handleFileAsync_meets self req file []))
    as [Hcalls _]; apply Hcalls in Ht.
Qed.

Lemma store_post_sound self req file w out :
  outcome handler (_handleFileAsync self req file) w = inr out ->
  store_post self file (trace handler (_handleFileAsync self req file) w) out.
Proof.
  intros Ho.
  by destruct (Meets_sound handler _ _ [] _ w (_handleFileAsync_meets self req file []))
    as [_ Hpost]; apply Hpost in Ho.
Qed.

Lemma remove_calls_sound self req file w pre ev post :
  trace handler (_removeFileAsync self req file) w = pre ++ ev :: post ->
  remove_calls self pre ev.
Proof.
  intros Ht.
  by destruct (Meets_sound handler _ _ [] _ w (_removeFileAsync_meets self req file []))
    as [Hcalls _]; apply Hcalls in Ht.
Qed.

Lemma store_upload_sound self req file w client options :
  (client, options) ∈ uploads (trace handler (_handleFileAsync self req file) w) ->
  (_contentSettings self = None ->
   Azure.blobHTTPHeaders options = default_headers file)
  /\ (_metadata self = None -> Azure.metadata options = None).
Proof.
  unfold uploads. rewrite list_elem_of_omap. intros (ev & Hin & Hev).
  apply list_elem_of_split in Hin as (pre & post & Ht).
  apply store_calls_sound in Ht.
  destruct ev as [R [R' c|R' c] r]; [discriminate|].
  destruct c; try discriminate. simpl in Hev, Ht.
  injection Hev as <- <-. tauto.
Qed.

Lemma store_returns_upload self req file w out :
  outcome handler (_handleFileAsync self req file) w = inr out ->
  exists client options,
    (client, options) ∈ uploads (trace handler (_handleFileAsync self req file) w).
Proof.
  intros Ho. apply store_post_sound in Ho
    as (c & b & uploadOptions & _ & _ & _ & Hup & _).
  eexists _, uploadOptions. unfold uploads. rewrite list_elem_of_omap.
  eexists. split; [exact Hup|done].
Qed.

Lemma creation_sound self req file w client options :
  (client, options) ∈ creations (trace handler (_handleFileAsync self req file) w)
  \/ (client, options)
       ∈ creations (trace handler (_removeFileAsync self req file) w) ->
  creation_spec self client options.
Proof.
  unfold creations. rewrite !list_elem_of_omap.
  intros [(ev & Hin & Hev)|(ev & Hin & Hev)];
    apply list_elem_of_split in Hin as (pre & post & Ht);
    [apply store_calls_sound in Ht|apply remove_calls_sound in Ht];
    destruct ev as [R [R' c|R' c] r]; try discriminate;
    destruct c; try discriminate; simpl in Hev, Ht;
    injection Hev as H1 H2; by rewrite <- H1, <- H2.
Qed.

Lemma _getContainerClient_run self name w :
  _autoCreateContainer self = true ->
  let client := Azure.getContainerClient (_blobServiceClient self) name in
  let creation :=
    Sdk (Azure.createIfNotExists client {| Azure.access := publicAccessLevel self |}) in
  run handler (_getContainerClient self name) w =
    match handler _ creation w with
    | (inl e, w1) => (inl e, w1, [Ev creation (inl e)])
    | (inr x, w1) => (inr client, w1, [Ev creation (inr x)])
    end.
Proof.
  intros Hauto. unfold _getContainerClient, publicAccessLevel. rewrite Hauto. simpl.
  replace (if decide (_containerAccessLevel self = Private) then None
           else Some (_containerAccessLevel self))
    with (match _containerAccessLevel self with Private => None | l => Some l end)
    by by destruct (_containerAccessLevel self).
  by destruct (handler _ _ w) as [[e|[]] w1].
Qed.


(** C4.  On an adapter constructed without content settings, every upload
    of a store carries exactly the content type of the file and the
    disposition "inline", all other headers unset; and a store that
    returns has made such an upload. *)
Theorem store_default_headers sdk options env self req file w :
  constructor sdk options env = inr self ->
  contentSettings options = None ->
  (forall client uploadOptions,
      (client, uploadOptions)
        ∈ uploads (trace handler (_handleFileAsync self req file) w) ->
      Azure.blobHTTPHeaders uploadOptions =
        {| Azure.blobCacheControl := None;
           Azure.blobContentType := Some (mimetype file);
           Azure.blobContentMD5 := None;
           Azure.blobContentEncoding := None;
           Azure.blobContentLanguage := None;
           Azure.blobContentDisposition := Some "inline" |})
  /\ (forall out,
         outcome handler (_handleFileAsync self req file) w = inr out ->
         exists client uploadOptions,
           (client, uploadOptions)
             ∈ uploads (trace handler (_handleFileAsync self req file) w)).
Proof.
  intros Hself Hnone.
  apply constructor_fields in Hself as (_ & _ & Hcs & _).
  rewrite Hnone in Hcs. simpl in Hcs. split.
  - intros client uploadOptions Hin.
    apply store_upload_sound in Hin as [Hheaders _]. by apply Hheaders.
  - intros out. apply store_returns_upload.
Qed.

(** C5.  On an adapter constructed without metadata, every upload of a
    store carries no metadata at all, and the descriptor of a store that
    returns has in [metadata] what the property fetch of that store
    answered. *)
Theorem store_without_metadata sdk options env self req file w :
  constructor sdk options env = inr self ->
  metadata options = None ->
  (forall client uploadOptions,
      (client, uploadOptions)
        ∈ uploads (trace handler (_handleFileAsync self req file) w) ->
      Azure.metadata uploadOptions = None)
  /\ (forall out,
         outcome handler (_handleFileAsync self req file) w = inr out ->
         exists client blobProperties,
           Ev (Sdk (Azure.getProperties client)) (inr blobProperties)
             ∈ trace handler (_handleFileAsync self req file) w
           /\ out !! "metadata"
              = Some (js_value VMetadata (Azure.metadata_of blobProperties))).
Proof.
  intros Hself Hnone.
  apply constructor_fields in Hself as (_ & Hmd & _).
  rewrite Hnone in Hmd. simpl in Hmd. split.
  - intros client uploadOptions Hin.
    apply store_upload_sound in Hin as [_ Hmetadata]. by apply Hmetadata.
  - intros out Ho. apply store_post_sound in Ho
      as (c & b & _ & blobProperties & _ & sasUrl & _ & Hprops & _ & ->).
    eexists _, blobProperties. split; [exact Hprops|].
    unfold descriptor. by simplify_map_eq.
Qed.

(** C9, as the code has it.  The descriptor of a store that returns has
    the enumerable fields of the input file and the seven added fields, and
    no other; every enumerable field of the input file not named as an
    added field is unchanged, so that a file all of whose fields are
    enumerable and none of which is named as an added field is kept whole;
    a field that is not enumerable, as the stream of the files of multer,
    is not in the descriptor; the added fields hold the signed URL, the
    answers of the property fetch and the resolved container and blob
    names, which name the blob that was uploaded, fetched and signed. *)
Theorem store_descriptor self req file w out :
  outcome handler (_handleFileAsync self req file) w = inr out ->
  exists containerName blobName uploadOptions blobProperties sasOptions sasUrl,
    let client :=
      Azure.getBlockBlobClient
        (Azure.getContainerClient (_blobServiceClient self) containerName) blobName in
    let t := trace handler (_handleFileAsync self req file) w in
    Ev (Sdk (Azure.uploadStream client (stream file) None None uploadOptions)) (inr tt) ∈ t
    /\ Ev (Sdk (Azure.getProperties client)) (inr blobProperties) ∈ t
    /\ Ev (Sdk (Azure.generateSasUrl client sasOptions)) (inr sasUrl) ∈ t
    /\ dom out = added_fields ∪ (dom (fields file) ∖ non_enumerable file)
    /\ (forall k, k ∉ added_fields -> k ∉ non_enumerable file ->
                  out !! k = fields file !! k)
    /\ (forall k, k ∉ added_fields -> k ∈ non_enumerable file -> out !! k = None)
    /\ (non_enumerable file = ∅ -> dom (fields file) ## added_fields ->
        keeps_every_field file out)
    /\ out !! "url" = Some (VString sasUrl)
    /\ out !! "etag" = Some (js_value VString (Azure.etag blobProperties))
    /\ out !! "metadata"
       = Some (js_value VMetadata (Azure.metadata_of blobProperties))
    /\ out !! "containerName" = Some (VString containerName)
    /\ out !! "blobName" = Some (VString blobName)
    /\ out !! "blobType" = Some (js_value VString (Azure.blobType blobProperties))
    /\ out !! "blobSize"
       = Some (js_value (fun n => VNumber (Num n))
                 (Azure.contentLength blobProperties)).
Proof.
  intros Ho. apply store_post_sound in Ho
    as (c & b & uploadOptions & blobProperties & sasOptions & sasUrl
        & Hup & Hprops & Hsas & ->).
  exists c, b, uploadOptions, blobProperties, sasOptions, sasUrl. simpl.
  split; [done|]. split; [done|]. split; [done|].
  split; [by rewrite descriptor_dom, spread_dom|].
  split.
  { intros k Hadded Henumerable.
    rewrite descriptor_frame, spread_lookup by done. by rewrite decide_False. }
  split.
  { intros k Hadded Hhidden.
    rewrite descriptor_frame, spread_lookup by done. by rewrite decide_True. }
  split; [apply descriptor_keeps|].
  unfold descriptor. by simplify_map_eq.
Qed.

End AnyHandler.

(** ** The default blob name *)

Section DefaultBlobName.
Context {W : Type} (handler : forall R, RuntimeCall R -> W -> (JsError + R) * W).

(** C6.  Without a [blobName] option the blob name of a constructed
    adapter is made of the clock in milliseconds, a hyphen, a fresh UUIDv4
    and what [extname] answers for the original file name (the extension
    with its dot, or nothing); the three are asked for in that order. *)
Theorem default_blob_name sdk options env self req file w w1 w2 w3 now uuid ext :
  constructor sdk options env = inr self ->
  blobName options = None ->
  handler _ DateNow w = (inr now, w1) ->
  handler _ UuidV4 w1 = (inr uuid, w2) ->
  handler _ (Extname (originalname file)) w2 = (inr ext, w3) ->
  run handler (_blobName self req file) w
    = (inr (pretty now +:+ "-" +:+ uuid +:+ ext), w3,
       [Ev DateNow (inr now); Ev UuidV4 (inr uuid);
        Ev (Extname (originalname file)) (inr ext)]).
Proof.
  intros Hself Hnone Hnow Huuid Hext.
  apply constructor_fields in Hself as (_ & _ & _ & Hname & _).
  rewrite Hname, Hnone. simpl.
  by rewrite Hnow, Huuid, Hext.
Qed.

End DefaultBlobName.

(** ** Container creation and removal *)

Lemma service_await_containers {A} (p : Prog RuntimeCall A) w :
  containers (world_after service (await p) w) = containers w.
Proof.
  unfold world_after, await. revert w.
  induction p as [a|e|R c k IH]; intros w; simpl; [done..|].
  assert (containers (runtime c w).2 = containers w) as Hc.
  { destruct c; simpl; [done| |done]. by destruct (uuids w). }
  destruct (runtime c w) as [[e|x] w1]; simpl in *; [done|].
  specialize (IH x w1).
  destruct (run service (translate _ (k x)) w1) as [[o w2] t]; simpl in *.
  congruence.
Qed.

(** C10.  On a constructed adapter with auto-creation enabled, explicitly
    or by default, a removal deletes only right after a successful
    [createIfNotExists] of the container of the blob; against the in-memory
    service, when the names resolve to a container that does not exist, the
    removal succeeds, has made one creation and one deletion, and leaves
    that container created. *)
Theorem remove_creates_container sdk options env self req file :
  constructor sdk options env = inr self ->
  autoCreateContainer options = None \/ autoCreateContainer options = Some true ->
  (forall W (handler : forall R, Call R -> W -> (JsError + R) * W) w
          pre client r post,
      trace handler (_removeFileAsync self req file) w
        = pre ++ Ev (Sdk (Azure.deleteIfExists client)) r :: post ->
      exists pre' options,
        pre = pre' ++ [Ev (Sdk (Azure.createIfNotExists (Azure.containerClient client)
                                  options)) (inr tt)])
  /\ (forall w c b,
         outcome service (await (_containerName self req file)) w = inr c ->
         outcome service (await (_blobName self req file))
           (world_after service (await (_containerName self req file)) w) = inr b ->
         containers w !! c = None ->
         let container := Azure.getContainerClient (_blobServiceClient self) c in
         outcome service (_removeFileAsync self req file) w = inr tt
         /\ containers (world_after service (_removeFileAsync self req file) w) !! c
            = Some {| publicAccess := publicAccessLevel self; blobs := ∅ |}
         /\ creations (trace service (_removeFileAsync self req file) w)
            = [(container, {| Azure.access := publicAccessLevel self |})]
         /\ deletions (trace service (_removeFileAsync self req file) w)
            = [Azure.getBlockBlobClient container b]).
Proof.
  intros Hself Henabled.
  apply constructor_fields in Hself as (_ & _ & _ & _ & _ & Hauto).
  assert (_autoCreateContainer self = true) as Htrue
    by (destruct Henabled as [Hopt|Hopt]; by rewrite Hauto, Hopt).
  clear Hauto Henabled. rename Htrue into Hauto. split.
  - intros W handler w pre client r post Ht.
    apply remove_calls_sound in Ht as [_ Hcreated]. by apply Hcreated.
  - intros w c b Hc Hb Hmissing container.
    pose proof (service_await_containers (_containerName self req file) w) as Hw1.
    pose proof (service_await_containers (_blobName self req file)
                  (world_after service (await (_containerName self req file)) w)) as Hw2.
    pose proof (await_no_sdk_calls service creation_of
                  (_containerName self req file) w (fun _ _ _ => eq_refl)) as Hc1.
    pose proof (await_no_sdk_calls service deletion_of
                  (_containerName self req file) w (fun _ _ _ => eq_refl)) as Hd1.
    pose proof (await_no_sdk_calls service creation_of (_blobName self req file)
                  (world_after service (await (_containerName self req file)) w)
                  (fun _ _ _ => eq_refl)) as Hc2.
    pose proof (await_no_sdk_calls service deletion_of (_blobName self req file)
                  (world_after service (await (_containerName self req file)) w)
                  (fun _ _ _ => eq_refl)) as Hd2.
    unfold outcome, world_after, trace, creations, deletions in *.
    unfold _removeFileAsync. rewrite run_mbind.
    destruct (run service (await (_containerName self req file)) w)
      as [[o1 w1] t1]; simpl in *. subst o1.
    rewrite run_mbind.
    destruct (run service (await (_blobName self req file)) w1)
      as [[o2 w2] t2]; simpl in *. subst o2.
    rewrite run_mbind, (_getContainerClient_run service self c w2 Hauto). simpl.
    rewrite Hw2, Hw1, Hmissing. simpl.
    unfold container_of. simpl. rewrite lookup_insert_eq. simpl.
    rewrite lookup_insert_eq, delete_empty.
    rewrite !omap_app, Hc1, Hc2, Hd1, Hd2. done.
Qed.

(** ** The development-storage adapter at work *)

Example dev_store_outcome :
  outcome service dev_store w0
  = inr (descriptor photo "uploads" dev_blob_name dev_sas_url dev_properties).
Proof. vm_cast_no_check (eq_refl (outcome service dev_store w0)). Qed.

Example dev_store_creations :
  creations (trace service dev_store w0)
  = [(dev_container, {| Azure.access := None |})].
Proof. vm_compute. reflexivity. Qed.

Example dev_store_uploads :
  uploads (trace service dev_store w0) = [(dev_blob, dev_upload_options)].
Proof. vm_compute. reflexivity. Qed.

Example dev_store_signings :
  signings (trace service dev_store w0) = [(dev_blob, dev_sas_options)].
Proof. vm_compute. reflexivity. Qed.


Lemma store_default_headers_witness :
  (dev_blob, dev_upload_options) ∈ uploads (trace service dev_store w0)
  /\ Azure.blobHTTPHeaders dev_upload_options =
       {| Azure.blobCacheControl := None;
          Azure.blobContentType := Some "image/png";
          Azure.blobContentMD5 := None;
          Azure.blobContentEncoding := None;
          Azure.blobContentLanguage := None;
          Azure.blobContentDisposition := Some "inline" |}.
Proof.
  assert ((dev_blob, dev_upload_options) ∈ uploads (trace service dev_store w0)) as Hin
    by (vm_compute; left).
  split; [exact Hin|].
  destruct (store_default_headers service client_factory dev_options ∅ dev_adapter
              request photo w0 eq_refl eq_refl) as [Hheaders _].
  exact (Hheaders dev_blob dev_upload_options Hin).
Defined.

Lemma store_without_metadata_witness :
  (dev_blob, dev_upload_options) ∈ uploads (trace service dev_store w0)
  /\ Azure.metadata dev_upload_options = None.
Proof.
  assert ((dev_blob, dev_upload_options) ∈ uploads (trace service dev_store w0)) as Hin
    by (vm_compute; left).
  split; [exact Hin|].
  destruct (store_without_metadata service client_factory dev_options ∅ dev_adapter
              request photo w0 eq_refl eq_refl) as [Hmetadata _].
  exact (Hmetadata dev_blob dev_upload_options Hin).
Defined.

Lemma default_blob_name_witness :
  run (@runtime) (_blobName dev_adapter request photo) w0
  = (inr "1700000000000-9b1deb4d-3b7d-4bad-9bdd-2b0d7b3dcb6d.png",
     {| clock := 1700000000000; uuids := []; containers := ∅ |},
     [Ev DateNow (inr 1700000000000);
      Ev UuidV4 (inr "9b1deb4d-3b7d-4bad-9bdd-2b0d7b3dcb6d");
      Ev (Extname "photo.png") (inr ".png")]).
Proof.
  exact (default_blob_name (@runtime) client_factory dev_options ∅ dev_adapter request
           photo w0 w0 _ _ 1700000000000 "9b1deb4d-3b7d-4bad-9bdd-2b0d7b3dcb6d" ".png"
           eq_refl eq_refl eq_refl eq_refl eq_refl).
Defined.

(** A file name without an extension gives a blob name without one. *)
Example default_blob_name_no_extension :
  outcome (@runtime)
    (generateBlobName request
       {| originalname := "README"; mimetype := "text/plain"; stream := [];
          other_fields := ∅; non_enumerable := {[ "stream" ]} |}) w0
  = inr "1700000000000-9b1deb4d-3b7d-4bad-9bdd-2b0d7b3dcb6d".
Proof. reflexivity. Qed.

Lemma store_descriptor_witness :
  outcome service dev_store w0
  = inr (descriptor photo "uploads" dev_blob_name dev_sas_url dev_properties)
  /\ dom (descriptor photo "uploads" dev_blob_name dev_sas_url dev_properties)
     = added_fields ∪ (dom (fields photo) ∖ non_enumerable photo).
Proof.
  assert (outcome service dev_store w0
          = inr (descriptor photo "uploads" dev_blob_name dev_sas_url dev_properties))
    as Hout by (vm_cast_no_check (eq_refl (outcome service dev_store w0))).
  split; [exact Hout|].
  destruct (store_descriptor service dev_adapter request photo w0 _ Hout)
    as (c & b & uploadOptions & blobProperties & sasOptions & sasUrl
        & _ & _ & _ & Hdom & _).
  exact Hdom.
Defined.

(** The descriptor of the file of multer: the four fields that multer sets,
    without the stream, and the seven added fields. *)
Example dev_store_descriptor :
  descriptor photo "uploads" dev_blob_name dev_sas_url dev_properties
  = {[ "fieldname" := VString "avatar";
       "originalname" := VString "photo.png";
       "encoding" := VString "7bit";
       "mimetype" := VString "image/png";
       "url" := VString dev_sas_url;
       "etag" := VString "0x1";
       "metadata" := VUndefined;
       "containerName" := VString "uploads";
       "blobName" := VString dev_blob_name;
       "blobType" := VString "BlockBlob";
       "blobSize" := VNumber (Num 4) ]}.
Proof.
  vm_cast_no_check
    (eq_refl (descriptor photo "uploads" dev_blob_name dev_sas_url dev_properties)).
Qed.

(** C9 as stated fails: the file that multer hands over has a stream, and
    the descriptor of its store has none, so not every field of the input
    file is in the descriptor. *)
Lemma store_drops_stream :
  exists out,
    outcome service (_handleFileAsync dev_adapter request photo) w0 = inr out
    /\ fields photo !! "stream" = Some (VStream (stream photo))
    /\ out !! "stream" = None
    /\ ~ keeps_every_field photo out.
Proof.
  exists (descriptor photo "uploads" dev_blob_name dev_sas_url dev_properties).
  split; [|split; [|split]].
  - vm_cast_no_check
      (eq_refl (outcome service (_handleFileAsync dev_adapter request photo) w0)).
  - reflexivity.
  - vm_compute. reflexivity.
  - intros Hkeeps.
    specialize (Hkeeps "stream" (VStream (stream photo)) eq_refl).
    vm_compute in Hkeeps. discriminate Hkeeps.
Qed.

(** A file all of whose fields are enumerable is kept whole. *)
Example store_keeps_plain_file :
  exists out,
    outcome service (_handleFileAsync dev_adapter request plain_photo) w0 = inr out
    /\ out !! "stream" = Some (VStream (stream plain_photo))
    /\ keeps_every_field plain_photo out.
Proof.
  assert (exists out,
             outcome service (_handleFileAsync dev_adapter request plain_photo) w0
             = inr out) as [out Hout] by (eexists; reflexivity).
  exists out. split; [done|].
  destruct (store_post_sound service dev_adapter request plain_photo w0 out Hout)
    as (c & b & uploadOptions & blobProperties & sasOptions & sasUrl & _ & _ & _ & ->).
  assert (keeps_every_field plain_photo (descriptor plain_photo c b sasUrl blobProperties))
    as Hkeeps.
  { apply descriptor_keeps; [done|]. compute_done. }
  split; [|done]. by apply Hkeeps.
Qed.

Lemma remove_creates_container_witness :
  containers w0 !! "uploads" = None
  /\ outcome service dev_remove w0 = inr tt
  /\ containers (world_after service dev_remove w0) !! "uploads"
     = Some {| publicAccess := None; blobs := ∅ |}.
Proof.
  split; [reflexivity|].
  destruct (remove_creates_container client_factory dev_options ∅ dev_adapter request
              photo eq_refl (or_introl eq_refl)) as [_ Hservice].
  destruct (Hservice w0 "uploads" dev_blob_name eq_refl eq_refl eq_refl)
    as (Hout & Hcreated & _).
  split; [exact Hout|exact Hcreated].
Defined.

(** The expirations of C3, and [NaN], which is neither positive nor at most
    0 and gives no expiry. *)
Example expiry_false : expiry_under (Some IsFalse) = [None].
Proof. vm_compute. reflexivity. Qed.

Example expiry_unset :
  expiry_under None = [Some {| Azure.getTime := Num (1700000000000 + 3600000) |}].
Proof. vm_compute. reflexivity. Qed.

Example expiry_zero :
  expiry_under (Some (IsNumber (Num 0)))
  = [Some {| Azure.getTime := Num (1700000000000 + 3600000) |}].
Proof. vm_compute. reflexivity. Qed.

Example expiry_negative :
  expiry_under (Some (IsNumber (Num (-5))))
  = [Some {| Azure.getTime := Num (1700000000000 + 3600000) |}].
Proof. vm_compute. reflexivity. Qed.

Example expiry_negative_Infinity :
  expiry_under (Some (IsNumber (Infinity true)))
  = [Some {| Azure.getTime := Num (1700000000000 + 3600000) |}].
Proof. vm_compute. reflexivity. Qed.

Example expiry_15_minutes :
  expiry_under (Some (IsNumber (Num 15)))
  = [Some {| Azure.getTime := Num (1700000000000 + 900000) |}].
Proof. vm_compute. reflexivity. Qed.

Example expiry_NaN : expiry_under (Some (IsNumber NaN)) = [None].
Proof. vm_compute. reflexivity. Qed.

Example expiry_Infinity :
  expiry_under (Some (IsNumber (Infinity false))) = [Some {| Azure.getTime := NaN |}].
Proof. vm_compute. reflexivity. Qed.

(** The last whole number of minutes that gives a date, at this time. *)
Example expiry_last_minute :
  expiry_under (Some (IsNumber (Num 143971666666)))
  = [Some {| Azure.getTime := Num 8639999999960000 |}].
Proof. vm_compute. reflexivity. Qed.

(** A store that asks for an invalid date is refused the signed URL by the
    in-memory service, after the upload. *)
Example expiry_beyond_Date_store :
  outcome service
    (_handleFileAsync (adapter_of (dev_options_with (Some (IsNumber (Num 150000000000)))
                                     None)) request photo) w0
  = inl (RangeError "Invalid time value").
Proof. vm_compute. reflexivity. Qed.


(** The access levels of C7, for a store followed by a removal on an empty
    account. *)
Example access_private : access_under (Some Private) = [None; None].
Proof. vm_compute. reflexivity. Qed.

Example access_unset : access_under None = [None; None].
Proof. vm_compute. reflexivity. Qed.

Example access_blob :
  access_under (Some PublicBlob) = [Some PublicBlob; Some PublicBlob].
Proof. vm_compute. reflexivity. Qed.

Example access_container :
  access_under (Some PublicContainer) = [Some PublicContainer; Some PublicContainer].
Proof. vm_compute. reflexivity. Qed.

(** * Part III: further lemmas *)

(** ** The exact calls of the operations *)

Lemma Meets_await_via {A} (P : CallSpec Call) h (p : Prog RuntimeCall A) :
  (forall h' R (c : RuntimeCall R) r, P h' (Ev (Runtime c) r)) ->
  Meets P (fun h' a => exists t, h' = h ++ (awaited <$> t) /\ ReturnsVia p t a)
    h (await p).
Proof.
  intros HP. revert h. induction p as [a|e|R c k IH]; intros h; simpl.
  - constructor. exists []. simpl. by rewrite app_nil_r.
  - constructor.
  - constructor; [intros; apply HP|]. intros x.
    eapply Meets_consequence; [apply IH|].
    intros h' a (t & -> & Hreturns). exists (Ev c (inr x) :: t). split.
    + simpl. by rewrite <- (assoc_L (++)).
    + by exists x, t.
Qed.

Lemma awaited_not_sdk (t : list (Event RuntimeCall)) :
  sdk_calls (awaited <$> t) = [].
Proof. unfold sdk_calls. induction t as [|[R c r] t IH]; [done|]. simpl. apply IH. Qed.

Lemma sdk_calls_app (t1 t2 : list (Event Call)) :
  sdk_calls (t1 ++ t2) = sdk_calls t1 ++ sdk_calls t2.
Proof. apply List.filter_app. Qed.

Lemma ResolvedNames_not_sdk self req file t c b :
  ResolvedNames self req file t c b -> sdk_calls t = [].
Proof.
  intros (tc & tb & -> & _). by rewrite sdk_calls_app, !awaited_not_sdk.
Qed.

Lemma Resolved_not_sdk self req file t c b settings metadata :
  Resolved self req file t c b settings metadata -> sdk_calls t = [].
Proof.
  intros (tn & ts & tm & -> & Hn & _).
  by rewrite !sdk_calls_app, !awaited_not_sdk, (ResolvedNames_not_sdk _ _ _ _ _ _ Hn).
Qed.

Lemma Expiry_not_sdk self t expiresOn :
  Expiry self t expiresOn -> sdk_calls t = [].
Proof.
  unfold Expiry. destruct (_urlExpirationTime self) as [minutes|].
  - destruct (truthy minutes).
    + by intros (now & -> & _).
    + by intros [-> _].
  - by intros [-> _].
Qed.

Lemma creation_events_sdk self c :
  sdk_calls (creation_events self c) = creation_events self c.
Proof. unfold creation_events. by destruct (_autoCreateContainer self). Qed.

Lemma _handleFileAsync_protocol self req file :
  Meets (store_protocol self req file) (store_returns self req file) []
    (_handleFileAsync self req file).
Proof.
  unfold _handleFileAsync.
  eapply Meets_mbind; [by apply Meets_await_via|].
  intros h1 containerName (tc & -> & Hcontainer).
  eapply Meets_mbind; [by apply Meets_await_via|].
  intros h2 blobName (tb & -> & Hblob).
  assert (ResolvedNames self req file ([] ++ (awaited <$> tc) ++ (awaited <$> tb))
            containerName blobName) as Hnames by by exists tc, tb.
  rewrite <- (assoc_L (++)).
  set (tn := [] ++ (awaited <$> tc) ++ (awaited <$> tb)) in *.
  eapply Meets_mbind with
    (Q1 := fun h' settings =>
             exists ts, h' = tn ++ (awaited <$> ts)
               /\ match _contentSettings self with
                  | Some resolver => ReturnsVia (resolver req file) ts settings
                  | None => ts = [] /\ settings = default_settings file
                  end).
  { destruct (_contentSettings self) as [resolver|].
    - by apply Meets_await_via.
    - apply Meets_mret. exists []. simpl. by rewrite app_nil_r. }
  intros h3 settings (ts & -> & Hsettings).
  eapply Meets_mbind with
    (Q1 := fun h' metadata =>
             exists tm, h' = (tn ++ (awaited <$> ts)) ++ (awaited <$> tm)
               /\ match _metadata self with
                  | Some resolver =>
                      exists m, ReturnsVia (resolver req file) tm m /\ metadata = Some m
                  | None => tm = [] /\ metadata = None
                  end).
  { destruct (_metadata self) as [resolver|].
    - eapply Meets_mbind; [by apply Meets_await_via|].
      intros h' value (tm & -> & Hvalue). apply Meets_mret. exists tm. eauto.
    - apply Meets_mret. exists []. simpl. by rewrite app_nil_r. }
  intros h4 metadata (tm & -> & Hmetadata).
  rewrite <- (assoc_L (++)).
  set (t := tn ++ (awaited <$> ts) ++ (awaited <$> tm)).
  assert (Resolved self req file t containerName blobName settings metadata)
    as Hresolved by by exists tn, ts, tm.
  clearbody t. clear Hnames Hsettings Hcontainer Hblob tn.
  assert (js_or metadata None = metadata) as Hor.
  { destruct (_metadata self); [by destruct Hmetadata as (value & _ & ->)|].
    by destruct Hmetadata as [_ ->]. }
  clear Hmetadata.
  eapply Meets_mbind with
    (Q1 := fun h' container =>
             container = Azure.getContainerClient (_blobServiceClient self) containerName
             /\ h' = t ++ creation_events self containerName).
  { unfold _getContainerClient, creation_events.
    destruct (_autoCreateContainer self) eqn:Hauto.
    - eapply Meets_mbind; [apply Meets_call with (Q := fun h' _ =>
        h' = t ++ [Ev (Sdk (Azure.createIfNotExists
                 (Azure.getContainerClient (_blobServiceClient self) containerName)
                 {| Azure.access := publicAccessLevel self |})) (inr tt)])|].
      + intros r. simpl. exists containerName, blobName, settings, metadata.
        split_and!; try done. unfold publicAccessLevel.
        by destruct (_containerAccessLevel self).
      + intros []. unfold publicAccessLevel.
        by destruct (_containerAccessLevel self).
      + intros h' [] ->. by apply Meets_mret.
    - eapply Meets_mbind; [apply Meets_mret with (Q := fun h' _ => h' = t); done|].
      intros h' [] ->. apply Meets_mret. by rewrite app_nil_r. }
  intros h5 container [-> ->].
  assert (upload_history self req file (t ++ creation_events self containerName)
            containerName blobName settings metadata) as Hhistory by by exists t.
  set (h := t ++ creation_events self containerName) in *. clearbody h.
  fold (blob_client self containerName blobName).
  set (client := blob_client self containerName blobName).
  rewrite Hor.
  fold (headers_of settings). fold (upload_options settings metadata).
  set (uploaded := Ev (Sdk (Azure.uploadStream client (stream file) None None
                              (upload_options settings metadata))) (inr tt)).
  eapply Meets_mbind; [apply Meets_call with (Q := fun h' _ => h' = h ++ [uploaded])|].
  { intros r. simpl. exists containerName, blobName, settings, metadata. by split_and!. }
  { by intros []. }
  intros h6 [] ->.
  eapply Meets_mbind; [apply Meets_call with (Q := fun h' blobProperties =>
    h' = (h ++ [uploaded])
         ++ [Ev (Sdk (Azure.getProperties client)) (inr blobProperties)])|].
  { intros r. simpl. exists containerName, blobName, settings, metadata.
    split; [done|]. by exists h. }
  { done. }
  intros h7 blobProperties ->.
  eapply Meets_mbind with
    (Q1 := fun h' expiresOn =>
             exists te, Expiry self te expiresOn
               /\ h' = ((h ++ [uploaded])
                        ++ [Ev (Sdk (Azure.getProperties client)) (inr blobProperties)])
                       ++ te).
  { unfold expiresOn_of, Expiry.
    destruct (_urlExpirationTime self) as [minutes|].
    - destruct (truthy minutes).
      + eapply Meets_mbind; [apply Meets_call with (Q := fun h' now =>
          h' = ((h ++ [uploaded])
                ++ [Ev (Sdk (Azure.getProperties client)) (inr blobProperties)])
               ++ [Ev (Runtime DateNow) (inr now)]); done|].
        intros h' now ->. apply Meets_mret. eexists. split; [|done]. by exists now.
      + apply Meets_mret. exists []. by rewrite app_nil_r.
    - apply Meets_mret. exists []. by rewrite app_nil_r. }
  intros h8 expiresOn (te & Hexpiry & ->).
  eapply Meets_mbind; [apply Meets_call with (Q := fun h' sasUrl =>
    h' = (((h ++ [uploaded])
           ++ [Ev (Sdk (Azure.getProperties client)) (inr blobProperties)]) ++ te)
         ++ [Ev (Sdk (Azure.generateSasUrl client
                        {| Azure.expiresOn := expiresOn;
                           Azure.permissions := read_only |})) (inr sasUrl)])|].
  { intros r. simpl. exists containerName, blobName, settings, metadata.
    split; [done|]. exists h, blobProperties, te. split_and!; try done.
    by rewrite <- !(assoc_L (++)). }
  { done. }
  intros h9 sasUrl ->. apply Meets_mret.
  exists containerName, blobName, settings, metadata, h, blobProperties, te,
    expiresOn, sasUrl.
  split_and!; try done. by rewrite <- !(assoc_L (++)).
Qed.

Lemma _removeFileAsync_protocol self req file :
  Meets (remove_protocol self req file) (fun h _ => remove_returns self req file h) []
    (_removeFileAsync self req file).
Proof.
  unfold _removeFileAsync.
  eapply Meets_mbind; [by apply Meets_await_via|].
  intros h1 containerName (tc & -> & Hcontainer).
  eapply Meets_mbind; [by apply Meets_await_via|].
  intros h2 blobName (tb & -> & Hblob).
  assert (ResolvedNames self req file ([] ++ (awaited <$> tc) ++ (awaited <$> tb))
            containerName blobName) as Hnames by by exists tc, tb.
  rewrite <- (assoc_L (++)).
  set (tn := [] ++ (awaited <$> tc) ++ (awaited <$> tb)) in *. clearbody tn.
  eapply Meets_mbind with
    (Q1 := fun h' container =>
             container = Azure.getContainerClient (_blobServiceClient self) containerName
             /\ h' = tn ++ creation_events self containerName).
  { unfold _getContainerClient, creation_events.
    destruct (_autoCreateContainer self) eqn:Hauto.
    - eapply Meets_mbind; [apply Meets_call with (Q := fun h' _ =>
        h' = tn ++ [Ev (Sdk (Azure.createIfNotExists
                 (Azure.getContainerClient (_blobServiceClient self) containerName)
                 {| Azure.access := publicAccessLevel self |})) (inr tt)])|].
      + intros r. simpl. exists containerName, blobName.
        split_and!; try done. unfold publicAccessLevel.
        by destruct (_containerAccessLevel self).
      + intros []. unfold publicAccessLevel.
        by destruct (_containerAccessLevel self).
      + intros h' [] ->. by apply Meets_mret.
    - eapply Meets_mbind; [apply Meets_mret with (Q := fun h' _ => h' = tn); done|].
      intros h' [] ->. apply Meets_mret. by rewrite app_nil_r. }
  intros h3 container [-> ->].
  fold (blob_client self containerName blobName).
  apply Meets_call.
  - intros r. simpl. exists containerName, blobName. split; [done|]. by exists tn.
  - intros []. exists containerName, blobName, tn. split; [done|].
    by rewrite <- (assoc_L (++)).
Qed.

Lemma omap_nil {A B} (f : A -> option B) (l : list A) :
  (forall x, x ∈ l -> f x = None) -> omap f l = [].
Proof.
  intros Hnone. induction l as [|x l IH]; [done|]. simpl.
  rewrite (Hnone x) by left. apply IH. intros y Hy. apply Hnone. by right.
Qed.

Lemma ReturnsVia_promisifyValue {T} (v a : T) req file t :
  ReturnsVia (promisifyValue v req file) t a -> t = [] /\ a = v.
Proof. simpl. by intros [-> <-]. Qed.

Section Protocol.
Context {W : Type} (handler : forall R, Call R -> W -> (JsError + R) * W).

Lemma store_protocol_sound self req file w pre ev post :
  trace handler (_handleFileAsync self req file) w = pre ++ ev :: post ->
  store_protocol self req file pre ev.
Proof.
  intros Ht.
  by destruct (Meets_sound handler _ _ [] _ w (_handleFileAsync_protocol self req file))
    as [Hcalls _]; apply Hcalls in Ht.
Qed.

Lemma store_returns_sound self req file w out :
  outcome handler (_handleFileAsync self req file) w = inr out ->
  store_returns self req file (trace handler (_handleFileAsync self req file) w) out.
Proof.
  intros Ho.
  by destruct (Meets_sound handler _ _ [] _ w (_handleFileAsync_protocol self req file))
    as [_ Hpost]; apply Hpost in Ho.
Qed.

Lemma remove_protocol_sound self req file w pre ev post :
  trace handler (_removeFileAsync self req file) w = pre ++ ev :: post ->
  remove_protocol self req file pre ev.
Proof.
  intros Ht.
  by destruct (Meets_sound handler _ _ [] _ w (_removeFileAsync_protocol self req file))
    as [Hcalls _]; apply Hcalls in Ht.
Qed.

Lemma remove_returns_sound self req file w :
  outcome handler (_removeFileAsync self req file) w = inr tt ->
  remove_returns self req file (trace handler (_removeFileAsync self req file) w).
Proof.
  intros Ho.
  by destruct (Meets_sound handler _ _ [] _ w (_removeFileAsync_protocol self req file))
    as [_ Hpost]; apply Hpost in Ho.
Qed.

(** X1.  A store that returns has made, of all the calls to the SDK,
    exactly these, in this order and each answered with success: the
    container creation when auto-creation is enabled, one upload, one
    property fetch and one signing, the last three on the one blob whose
    names are in the descriptor. *)
Theorem store_sdk_calls self req file w out :
  outcome handler (_handleFileAsync self req file) w = inr out ->
  exists containerName blobName uploadOptions blobProperties sasOptions sasUrl,
    let client := blob_client self containerName blobName in
    sdk_calls (trace handler (_handleFileAsync self req file) w)
    = creation_events self containerName
      ++ [Ev (Sdk (Azure.uploadStream client (stream file) None None uploadOptions))
            (inr tt);
          Ev (Sdk (Azure.getProperties client)) (inr blobProperties);
          Ev (Sdk (Azure.generateSasUrl client sasOptions)) (inr sasUrl)]
    /\ out = descriptor file containerName blobName sasUrl blobProperties.
Proof.
  intros Ho. apply store_returns_sound in Ho
    as (c & b & settings & metadata & h & blobProperties & te & expiresOn & sasUrl
        & (t & Hresolved & ->) & Hexpiry & -> & ->).
  eexists c, b, _, blobProperties, _, sasUrl. cbv zeta. split; [|done].
  rewrite !sdk_calls_app, (Resolved_not_sdk _ _ _ _ _ _ _ _ Hresolved),
    (Expiry_not_sdk _ _ _ Hexpiry), creation_events_sdk.
  reflexivity.
Qed.

(** X2.  In every run of a store, failed or not: a property fetch directly
    follows the successful upload of the same blob; a signing follows the
    successful property fetch of the same blob, with at most one reading of
    the clock in between; and with auto-creation enabled an upload directly
    follows the successful creation of the container of its blob. *)
Theorem store_call_order self req file w :
  (forall pre client r post,
      trace handler (_handleFileAsync self req file) w
        = pre ++ Ev (Sdk (Azure.getProperties client)) r :: post ->
      exists pre' uploadOptions,
        pre = pre' ++ [Ev (Sdk (Azure.uploadStream client (stream file) None None
                                  uploadOptions)) (inr tt)])
  /\ (forall pre client sasOptions r post,
         trace handler (_handleFileAsync self req file) w
           = pre ++ Ev (Sdk (Azure.generateSasUrl client sasOptions)) r :: post ->
         exists pre' blobProperties te,
           pre = pre' ++ [Ev (Sdk (Azure.getProperties client)) (inr blobProperties)]
                   ++ te
           /\ (te = [] \/ exists now, te = [Ev (Runtime DateNow) (inr now)]))
  /\ (forall pre client s bufferSize maxConcurrency uploadOptions r post,
         trace handler (_handleFileAsync self req file) w
           = pre ++ Ev (Sdk (Azure.uploadStream client s bufferSize maxConcurrency
                               uploadOptions)) r :: post ->
         _autoCreateContainer self = true ->
         exists pre' options,
           pre = pre' ++ [Ev (Sdk (Azure.createIfNotExists
                                     (Azure.containerClient client) options))
                            (inr tt)]).
Proof.
  split; [|split].
  - intros pre client r post Ht. apply store_protocol_sound in Ht.
    destruct Ht as (c & b & settings & metadata & -> & h' & _ & ->). eauto.
  - intros pre client sasOptions r post Ht. apply store_protocol_sound in Ht.
    destruct Ht as (c & b & settings & metadata & -> & h' & blobProperties & te
                    & _ & Hexpiry & _ & ->).
    exists (h' ++ [Ev (Sdk (Azure.uploadStream (blob_client self c b) (stream file)
                              None None (upload_options settings metadata))) (inr tt)]),
      blobProperties, te.
    split; [by rewrite <- !(assoc_L (++))|].
    unfold Expiry in Hexpiry. destruct (_urlExpirationTime self) as [minutes|].
    + destruct (truthy minutes).
      * destruct Hexpiry as (now & -> & _). eauto.
      * destruct Hexpiry as [-> _]. by left.
    + destruct Hexpiry as [-> _]. by left.
  - intros pre client s bufferSize maxConcurrency uploadOptions r post Ht Hauto.
    apply store_protocol_sound in Ht.
    destruct Ht as (c & b & settings & metadata & -> & _ & _ & _ & _
                    & (t & _ & ->)).
    unfold creation_events. rewrite Hauto. eauto.
Qed.

(** X3.  Every upload of a store, in every run, is given the stream of the
    file, no buffer size and no concurrency; its blob is named by what the
    container-name and blob-name resolvers returned in this run, in the
    service client of the adapter; its headers are the six fields of the
    resolved content settings, as they are, and its metadata is the
    resolved metadata. *)
Theorem store_upload_arguments self req file w pre client s bufferSize maxConcurrency
    uploadOptions r post :
  trace handler (_handleFileAsync self req file) w
    = pre ++ Ev (Sdk (Azure.uploadStream client s bufferSize maxConcurrency
                        uploadOptions)) r :: post ->
  s = stream file /\ bufferSize = None /\ maxConcurrency = None
  /\ exists containerName blobName settings metadata,
       upload_history self req file pre containerName blobName settings metadata
       /\ client = blob_client self containerName blobName
       /\ Azure.blobHTTPHeaders uploadOptions = headers_of settings
       /\ Azure.metadata uploadOptions = metadata.
Proof.
  intros Ht. apply store_protocol_sound in Ht.
  destruct Ht as (c & b & settings & metadata & -> & -> & -> & -> & -> & Hhistory).
  split_and!; try done. by exists c, b, settings, metadata.
Qed.

(** X13.  A removal that returns has called the two name resolvers, which
    returned, then the container creation, when auto-creation is enabled,
    and then the deletion of the blob named by what the two resolvers
    returned in this run, and nothing else: of all the calls to the SDK it
    has made exactly the creation and the deletion. *)
Theorem remove_sdk_calls self req file w :
  outcome handler (_removeFileAsync self req file) w = inr tt ->
  exists containerName blobName tn,
    ResolvedNames self req file tn containerName blobName
    /\ trace handler (_removeFileAsync self req file) w
       = tn ++ creation_events self containerName
            ++ [Ev (Sdk (Azure.deleteIfExists (blob_client self containerName blobName)))
                  (inr tt)]
    /\ sdk_calls (trace handler (_removeFileAsync self req file) w)
       = creation_events self containerName
         ++ [Ev (Sdk (Azure.deleteIfExists (blob_client self containerName blobName)))
               (inr tt)].
Proof.
  intros Ho. apply remove_returns_sound in Ho as (c & b & tn & Hnames & Ht).
  exists c, b, tn. split; [done|]. split; [done|]. rewrite Ht.
  by rewrite !sdk_calls_app, (ResolvedNames_not_sdk _ _ _ _ _ _ Hnames),
    creation_events_sdk.
Qed.

Lemma constructor_containerName sdk options env self :
  constructor sdk options env = inr self ->
  exists name, containerName options = Some name
               /\ _containerName self = promisifyOption name.
Proof.
  intros [Hself _]%constructor_made. revert Hself. unfold constructor.
  destruct (resolveConnection options env); [|discriminate].
  destruct (containerName options) as [cn|]; [|discriminate].
  destruct (truthy cn); simpl; [|discriminate].
  intros [= <-]. by exists cn.
Qed.

(** X4.  On a constructed adapter, a static container name, static content
    settings and static metadata reach every upload of a store as they
    were given: the container of the blob is the configured name, the six
    headers are the six configured fields (an unset field stays unset), and
    the metadata is the configured map, also when it is empty. *)
Theorem store_static_options sdk options env self req file w client uploadOptions :
  constructor sdk options env = inr self ->
  (client, uploadOptions) ∈ uploads (trace handler (_handleFileAsync self req file) w) ->
  (forall c, containerName options = Some (Static c) ->
             Azure.containerName (Azure.containerClient client) = c)
  /\ (forall settings, contentSettings options = Some (Static settings) ->
                       Azure.blobHTTPHeaders uploadOptions = headers_of settings)
  /\ (forall m, metadata options = Some (Static m) ->
                Azure.metadata uploadOptions = Some m).
Proof.
  intros Hself Hin.
  destruct (constructor_containerName _ _ _ _ Hself) as (name & Hname & Hcontainer).
  apply constructor_fields in Hself as (_ & Hmd & Hcs & _).
  unfold uploads in Hin. rewrite list_elem_of_omap in Hin.
  destruct Hin as (ev & Hin & Hev).
  apply list_elem_of_split in Hin as (pre & post & Ht).
  apply store_protocol_sound in Ht.
  destruct ev as [R [R' call|R' call] r]; [discriminate|].
  destruct call; try discriminate. simpl in Hev. injection Hev as -> ->.
  destruct Ht as (c & b & settings & md & -> & _ & _ & _ & ->
                  & (t & (tn & ts & tm & _ & (tc & tb & _ & Hc & _) & Hs & Hm) & _)).
  split; [|split].
  - intros c' Hc'. rewrite Hc' in Hname. injection Hname as <-.
    rewrite Hcontainer in Hc. by destruct Hc as [_ ->].
  - intros settings' Hs'. rewrite Hs' in Hcs. simpl in Hcs. rewrite Hcs in Hs.
    by destruct Hs as [_ ->].
  - intros m Hm'. rewrite Hm' in Hmd. simpl in Hmd. rewrite Hmd in Hm.
    by destruct Hm as (m' & [_ ->] & ->).
Qed.

(** X5.  In every run, a store never deletes, and a removal never uploads,
    never fetches properties and never signs a URL. *)
Theorem operations_keep_to_their_calls self req file w :
  deletions (trace handler (_handleFileAsync self req file) w) = []
  /\ uploads (trace handler (_removeFileAsync self req file) w) = []
  /\ fetches (trace handler (_removeFileAsync self req file) w) = []
  /\ signings (trace handler (_removeFileAsync self req file) w) = [].
Proof.
  split; [|split; [|split]]; apply omap_nil; intros ev Hin;
    apply list_elem_of_split in Hin as (pre & post & Ht);
    [apply store_protocol_sound in Ht|apply remove_protocol_sound in Ht..];
    destruct ev as [R [R' call|R' call] r]; try done;
    destruct call; try done; simpl in Ht;
    repeat (destruct Ht as [? Ht]); done.
Qed.

(** X6.  On an adapter constructed with [autoCreateContainer: false],
    neither a store nor a removal ever calls the container creation. *)
Theorem no_creation_when_disabled sdk options env self req file w :
  constructor sdk options env = inr self ->
  autoCreateContainer options = Some false ->
  creations (trace handler (_handleFileAsync self req file) w) = []
  /\ creations (trace handler (_removeFileAsync self req file) w) = [].
Proof.
  intros Hself Hoff.
  apply constructor_fields in Hself as (_ & _ & _ & _ & _ & Hauto).
  rewrite Hoff in Hauto. simpl in Hauto.
  split; apply omap_nil; intros ev Hin;
    apply list_elem_of_split in Hin as (pre & post & Ht);
    [apply store_protocol_sound in Ht|apply remove_protocol_sound in Ht];
    destruct ev as [R [R' call|R' call] r]; try done;
    destruct call; try done;
    destruct Ht as (? & ? & Ht); simpl in Ht; try done.
  - destruct Ht as (? & ? & Ht & _). congruence.
  - destruct Ht as (Ht & _). congruence.
Qed.

(** X7.  Every signed URL a store asks for, in every run, is asked with the
    read permission and no other. *)
Theorem signed_url_read_only self req file w client sasOptions :
  (client, sasOptions) ∈ signings (trace handler (_handleFileAsync self req file) w) ->
  Azure.permissions sasOptions
  = {| Azure.read := true; Azure.write := false; Azure.delete := false |}.
Proof.
  unfold signings. rewrite list_elem_of_omap. intros (ev & Hin & Hev).
  apply list_elem_of_split in Hin as (pre & post & Ht).
  apply store_protocol_sound in Ht.
  destruct ev as [R [R' call|R' call] r]; [discriminate|].
  destruct call; try discriminate. simpl in Hev. injection Hev as -> ->.
  by destruct Ht as (c & b & settings & md & _ & h' & props & te & _ & _ & Hperm & _).
Qed.

(** X8.  With [urlExpirationTime: NaN], which is neither at most 0 nor
    positive, every signed URL of a store is asked without an expiry, as
    with [false]. *)
Theorem signed_url_expiry_NaN sdk options env self req file w client sasOptions :
  constructor sdk options env = inr self ->
  urlExpirationTime options = Some (IsNumber NaN) ->
  (client, sasOptions) ∈ signings (trace handler (_handleFileAsync self req file) w) ->
  Azure.expiresOn sasOptions = None.
Proof.
  intros Hself Hnan.
  apply constructor_fields in Hself as (_ & _ & _ & _ & Hurl & _).
  unfold resolveUrlExpirationTime in Hurl. rewrite Hnan in Hurl. simpl in Hurl.
  unfold signings. rewrite list_elem_of_omap. intros (ev & Hin & Hev).
  apply list_elem_of_split in Hin as (pre & post & Ht).
  apply store_protocol_sound in Ht.
  destruct ev as [R [R' call|R' call] r]; [discriminate|].
  destruct call; try discriminate. simpl in Hev. injection Hev as -> ->.
  destruct Ht as (c & b & settings & md & _ & h' & props & te & _ & Hexpiry & _).
  unfold Expiry in Hexpiry. rewrite Hurl in Hexpiry. simpl in Hexpiry.
  by destruct Hexpiry as [_ ->].
Qed.

(** X14.  On an adapter constructed without a [blobName] option, every
    deletion of a removal comes right after the removal itself has read the
    clock, drawn a UUID and asked for the extension of the original file
    name, in that order, and then, when auto-creation is enabled, created
    the container; the blob it deletes is named by these three answers:
    the clock in decimal, a hyphen, the UUID and the extension. *)
Theorem remove_default_blob_name sdk options env self req file w pre client r post :
  constructor sdk options env = inr self ->
  blobName options = None ->
  trace handler (_removeFileAsync self req file) w
    = pre ++ Ev (Sdk (Azure.deleteIfExists client)) r :: post ->
  exists t now uuid ext,
    pre = t ++ [Ev (Runtime DateNow) (inr now);
                Ev (Runtime UuidV4) (inr uuid);
                Ev (Runtime (Extname (originalname file))) (inr ext)]
            ++ creation_events self (Azure.containerName (Azure.containerClient client))
    /\ Azure.name client = pretty now +:+ "-" +:+ uuid +:+ ext.
Proof.
  intros Hself Hnone Ht.
  apply constructor_fields in Hself as (_ & _ & _ & Hname & _).
  rewrite Hnone in Hname. simpl in Hname.
  apply remove_protocol_sound in Ht.
  destruct Ht as (c & b & -> & t & (tc & tb & -> & _ & Hb) & ->).
  rewrite Hname in Hb. simpl in Hb.
  destruct Hb as (now & t1 & -> & uuid & t2 & -> & ext & t3 & -> & -> & <-).
  exists (awaited <$> tc), now, uuid, ext. simpl. split; [|done].
  by rewrite <- (assoc_L (++)).
Qed.

(** X15.  When the two name resolvers of an adapter return, for a request
    and a file, the names [c] and [b] without consulting the runtime (a
    static container name, a blob name computed from the file), every
    upload of a store and every deletion of a removal for that request and
    file, in whatever runs, is of the same blob: [b] in [c]. *)
Theorem store_and_remove_same_blob self req file c b w w' :
  _containerName self req file = Ret c ->
  _blobName self req file = Ret b ->
  (forall client uploadOptions,
      (client, uploadOptions)
        ∈ uploads (trace handler (_handleFileAsync self req file) w) ->
      client = blob_client self c b)
  /\ (forall client,
         client ∈ deletions (trace handler (_removeFileAsync self req file) w') ->
         client = blob_client self c b).
Proof.
  intros Hc Hb. split.
  - intros client uploadOptions. unfold uploads. rewrite list_elem_of_omap.
    intros (ev & Hin & Hev).
    apply list_elem_of_split in Hin as (pre & post & Ht).
    apply store_protocol_sound in Ht.
    destruct ev as [R [R' call|R' call] r]; [discriminate|].
    destruct call; try discriminate. simpl in Hev. injection Hev as -> ->.
    destruct Ht as (c' & b' & settings & md & -> & _ & _ & _ & _
                    & (t & (tn & ts & tm & _ & (tc & tb & _ & Hc' & Hb') & _) & _)).
    rewrite Hc in Hc'. rewrite Hb in Hb'.
    destruct Hc' as [_ ->]. by destruct Hb' as [_ ->].
  - intros client. unfold deletions. rewrite list_elem_of_omap.
    intros (ev & Hin & Hev).
    apply list_elem_of_split in Hin as (pre & post & Ht).
    apply remove_protocol_sound in Ht.
    destruct ev as [R [R' call|R' call] r]; [discriminate|].
    destruct call; try discriminate. simpl in Hev. injection Hev as ->.
    destruct Ht as (c' & b' & -> & t & (tc & tb & _ & Hc' & Hb') & _).
    rewrite Hc in Hc'. rewrite Hb in Hb'.
    destruct Hc' as [_ ->]. by destruct Hb' as [_ ->].
Qed.

End Protocol.

(** ** Container creation *)

Lemma creations_awaited (t : list (Event RuntimeCall)) :
  creations (awaited <$> t) = [].
Proof. unfold creations. induction t as [|[R c r] t IH]; [done|]. apply IH. Qed.

Lemma creations_ResolvedNames self req file t c b :
  ResolvedNames self req file t c b -> creations t = [].
Proof.
  intros (tc & tb & -> & _). unfold creations.
  rewrite omap_app. fold (creations (awaited <$> tc)) (creations (awaited <$> tb)).
  by rewrite !creations_awaited.
Qed.

Lemma creations_Resolved self req file t c b settings metadata :
  Resolved self req file t c b settings metadata -> creations t = [].
Proof.
  intros (tn & ts & tm & -> & Hn & _). unfold creations.
  rewrite !omap_app.
  fold (creations tn) (creations (awaited <$> ts)) (creations (awaited <$> tm)).
  by rewrite !creations_awaited, (creations_ResolvedNames _ _ _ _ _ _ Hn).
Qed.

Lemma creations_Expiry self t expiresOn : Expiry self t expiresOn -> creations t = [].
Proof.
  unfold Expiry. destruct (_urlExpirationTime self) as [minutes|].
  - destruct (truthy minutes).
    + by intros (now & -> & _).
    + by intros [-> _].
  - by intros [-> _].
Qed.

Lemma publicAccessLevel_constructor sdk options env self :
  constructor sdk options env = inr self ->
  publicAccessLevel self = creation_access options.
Proof.
  intros (Hlevel & _)%constructor_fields.
  unfold publicAccessLevel, creation_access. rewrite Hlevel.
  by destruct (containerAccessLevel options) as [[]|].
Qed.

(** C7.  On an adapter constructed with auto-creation enabled, explicitly
    or by default: every container creation of a store or of a removal, in
    every run, is a [createIfNotExists] whose access is absent for the
    level [private], given or by default, and the level itself for [blob]
    and [container]; a store that returns has made exactly one such
    creation, of the container named in its descriptor, and a removal that
    returns exactly one, of the container of the blob it deleted; and
    against the in-memory service the creation succeeds and changes nothing
    when the container exists. *)
Theorem container_creation_access sdk options env self :
  constructor sdk options env = inr self ->
  autoCreateContainer options = None \/ autoCreateContainer options = Some true ->
  (forall W (handler : forall R, Call R -> W -> (JsError + R) * W) w req file
          client creation,
      (client, creation) ∈ creations (trace handler (_handleFileAsync self req file) w)
      \/ (client, creation)
           ∈ creations (trace handler (_removeFileAsync self req file) w) ->
      (containerAccessLevel options = Some Private
       \/ containerAccessLevel options = None -> Azure.access creation = None)
      /\ (containerAccessLevel options = Some PublicBlob ->
          Azure.access creation = Some PublicBlob)
      /\ (containerAccessLevel options = Some PublicContainer ->
          Azure.access creation = Some PublicContainer))
  /\ (forall W (handler : forall R, Call R -> W -> (JsError + R) * W) w req file out,
         outcome handler (_handleFileAsync self req file) w = inr out ->
         exists containerName,
           out !! "containerName" = Some (VString containerName)
           /\ creations (trace handler (_handleFileAsync self req file) w)
              = [(Azure.getContainerClient (_blobServiceClient self) containerName,
                  {| Azure.access := creation_access options |})])
  /\ (forall W (handler : forall R, Call R -> W -> (JsError + R) * W) w req file,
         outcome handler (_removeFileAsync self req file) w = inr tt ->
         exists containerName blobName,
           deletions (trace handler (_removeFileAsync self req file) w)
           = [blob_client self containerName blobName]
           /\ creations (trace handler (_removeFileAsync self req file) w)
              = [(Azure.getContainerClient (_blobServiceClient self) containerName,
                  {| Azure.access := creation_access options |})])
  /\ (forall w name,
         is_Some (containers w !! name) ->
         outcome service (_getContainerClient self name) w
           = inr (Azure.getContainerClient (_blobServiceClient self) name)
         /\ creations (trace service (_getContainerClient self name) w)
            = [(Azure.getContainerClient (_blobServiceClient self) name,
                {| Azure.access := creation_access options |})]
         /\ world_after service (_getContainerClient self name) w = w).
Proof.
  intros Hself Henabled.
  pose proof (publicAccessLevel_constructor _ _ _ _ Hself) as Haccess.
  pose proof Hself as (Hlevel & _ & _ & _ & _ & Hauto)%constructor_fields.
  assert (_autoCreateContainer self = true) as Htrue
    by (destruct Henabled as [Hopt|Hopt]; by rewrite Hauto, Hopt).
  clear Hauto Henabled Hself. split; [|split; [|split]].
  - intros W handler w req file client creation Hin.
    apply creation_sound in Hin as (_ & _ & Hspec). rewrite Hlevel in Hspec.
    split; [|split].
    + intros [Hopt|Hopt]; by rewrite Hopt in Hspec.
    + intros Hopt. by rewrite Hopt in Hspec.
    + intros Hopt. by rewrite Hopt in Hspec.
  - intros W handler w req file out Ho.
    apply store_returns_sound in Ho
      as (c & b & settings & metadata & h & blobProperties & te & expiresOn & sasUrl
          & (t & Hresolved & ->) & Hexpiry & -> & ->).
    exists c. split; [unfold descriptor; by simplify_map_eq|].
    unfold creations. rewrite !omap_app.
    fold (creations t) (creations te).
    rewrite (creations_Resolved _ _ _ _ _ _ _ _ Hresolved),
      (creations_Expiry _ _ _ Hexpiry).
    unfold creation_events. rewrite Htrue, Haccess. reflexivity.
  - intros W handler w req file Ho.
    apply remove_returns_sound in Ho as (c & b & tn & Hnames & ->).
    exists c, b. unfold creations, deletions. rewrite !omap_app.
    fold (creations tn).
    rewrite (creations_ResolvedNames _ _ _ _ _ _ Hnames).
    assert (omap deletion_of tn = []) as ->.
    { destruct Hnames as (tc & tb & -> & _). rewrite omap_app.
      assert (forall l : list (Event RuntimeCall), omap deletion_of (awaited <$> l) = [])
        as Hnone by (intros l; induction l as [|[]]; done).
      by rewrite !Hnone. }
    unfold creation_events. rewrite Htrue, Haccess. split; reflexivity.
  - intros w name [c Hc]. unfold outcome, world_after, trace.
    rewrite (_getContainerClient_run service self name w Htrue), Haccess. simpl.
    by rewrite Hc.
Qed.

(** ** Construction, further *)

Lemma constructor_connection sdk options env self :
  constructor sdk options env = inr self ->
  exists connection,
    resolveConnection options env = Some connection
    /\ _blobServiceClient self =
         match connection with
         | ConnectionString s => Azure.fromConnectionString s
         | SharedKey name key =>
             Azure.new
               ("https://" +:+ template (accountName options) +:+ ".blob.core.windows.net")
               {| Azure.accountName := name; Azure.accountKey := key |}
         end.
Proof.
  intros [Hself _]%constructor_made. revert Hself. unfold constructor.
  destruct (resolveConnection options env) as [connection|]; [|discriminate].
  destruct (containerName options) as [cn|]; [|discriminate].
  destruct (truthy cn); simpl; [|discriminate].
  intros [= <-]. by exists connection.
Qed.

Lemma truthy_Some_string (s : string) : s <> "" -> truthy (Some s) = true.
Proof.
  intros Hs. change (truthy (Some s)) with (negb (bool_decide (s = ""))).
  by rewrite bool_decide_false.
Qed.

(** The value that [option || process.env.VARIABLE || null] takes. *)
Lemma or_null_js_or_option (o e : option string) s :
  o = Some s -> s <> "" -> or_null (js_or o e) = Some s.
Proof.
  intros -> Hs. unfold or_null, js_or. by rewrite !truthy_Some_string.
Qed.

Lemma or_null_js_or_env (o e : option string) s :
  truthy o = false -> e = Some s -> s <> "" -> or_null (js_or o e) = Some s.
Proof.
  intros Ho -> Hs. unfold or_null, js_or. by rewrite Ho, !truthy_Some_string.
Qed.

Lemma or_null_js_or_None (o e : option string) :
  truthy o = false -> truthy e = false -> or_null (js_or o e) = None.
Proof. intros Ho He. unfold or_null, js_or. by rewrite Ho, He. Qed.

(** X9.  The expiration kept by a constructed adapter, by the option: it
    is absent exactly when the option is [false]; it is 60 when the option
    is unset, or a number at most 0; it is the option itself when that is a
    positive number, or [NaN].  So it is never zero or negative. *)
Theorem constructor_expiration sdk options env self :
  constructor sdk options env = inr self ->
  (_urlExpirationTime self = None <-> urlExpirationTime options = Some IsFalse)
  /\ (urlExpirationTime options = None -> _urlExpirationTime self = Some (Num 60))
  /\ (forall n, urlExpirationTime options = Some (IsNumber (Num n)) -> n <= 0 ->
                _urlExpirationTime self = Some (Num 60))
  /\ (urlExpirationTime options = Some (IsNumber (Infinity true)) ->
      _urlExpirationTime self = Some (Num 60))
  /\ (forall n, urlExpirationTime options = Some (IsNumber (Num n)) -> 0 < n ->
                _urlExpirationTime self = Some (Num n))
  /\ (urlExpirationTime options = Some (IsNumber (Infinity false)) ->
      _urlExpirationTime self = Some (Infinity false))
  /\ (urlExpirationTime options = Some (IsNumber NaN) ->
      _urlExpirationTime self = Some NaN)
  /\ match _urlExpirationTime self with
     | None => urlExpirationTime options = Some IsFalse
     | Some NaN => urlExpirationTime options = Some (IsNumber NaN)
     | Some (Num n) =>
         0 < n /\ (n = 60 \/ urlExpirationTime options = Some (IsNumber (Num n)))
     | Some (Infinity negative) =>
         negative = false
         /\ urlExpirationTime options = Some (IsNumber (Infinity false))
     end.
Proof.
  intros Hself.
  apply constructor_fields in Hself as (_ & _ & _ & _ & -> & _).
  unfold resolveUrlExpirationTime.
  destruct (urlExpirationTime options) as [[|[|n|[|]]]|]; simpl;
    try case_bool_decide; simpl; repeat split;
    try done; try lia;
    try (intros m [= <-] ?; (done || lia));
    try (by left); by right.
Qed.

(** X10.  A connection string always wins: when the option holds a
    non-empty connection string, the client of a constructed adapter is
    made from it, whatever the account name, the access key and the
    environment are; when the option holds none and the environment
    variable holds one, the client is made from that one. *)
Theorem constructor_connection_string sdk options env self :
  constructor sdk options env = inr self ->
  (forall s, connectionString options = Some s -> s <> "" ->
             _blobServiceClient self = Azure.fromConnectionString s)
  /\ (forall s, truthy (connectionString options) = false ->
                env !! "AZURE_STORAGE_CONNECTION_STRING" = Some s -> s <> "" ->
                _blobServiceClient self = Azure.fromConnectionString s).
Proof.
  intros Hself.
  destruct (constructor_connection _ _ _ _ Hself) as (connection & Hconn & ->).
  unfold resolveConnection in Hconn. split.
  - intros s Hopt Hs.
    rewrite (or_null_js_or_option _ _ s Hopt Hs) in Hconn.
    rewrite truthy_Some_string in Hconn by done.
    by injection Hconn as <-.
  - intros s Hopt Henv Hs.
    rewrite (or_null_js_or_env _ _ s Hopt Henv Hs) in Hconn.
    rewrite truthy_Some_string in Hconn by done.
    by injection Hconn as <-.
Qed.

(** X11.  Without any connection string, an account name given in the
    options with an access key given in the options, or failing that in
    the environment, makes a shared-key client: it is addressed to the blob
    endpoint of that account, with a credential of that account and key.
    The key of the options wins over the key of the environment. *)
Theorem constructor_shared_key sdk options env self name key :
  constructor sdk options env = inr self ->
  available (connectionString options) "AZURE_STORAGE_CONNECTION_STRING" env = false ->
  accountName options = Some name -> name <> "" ->
  (accessKey options = Some key
   \/ (truthy (accessKey options) = false
       /\ env !! "AZURE_STORAGE_ACCESS_KEY" = Some key)) ->
  key <> "" ->
  _blobServiceClient self =
    Azure.new ("https://" +:+ name +:+ ".blob.core.windows.net")
      {| Azure.accountName := name; Azure.accountKey := key |}.
Proof.
  intros Hself Hnone Hname Hn Hkey Hk.
  destruct (constructor_connection _ _ _ _ Hself) as (connection & Hconn & ->).
  unfold available in Hnone. apply orb_false_iff in Hnone as [Hopt Henv].
  unfold resolveConnection in Hconn.
  rewrite (or_null_js_or_None _ _ Hopt Henv) in Hconn.
  rewrite (or_null_js_or_option _ _ name Hname Hn) in Hconn.
  assert (or_null (js_or (accessKey options) (env !! "AZURE_STORAGE_ACCESS_KEY"))
          = Some key) as Hresolved.
  { destruct Hkey as [Hkey|[Hkey Hkeyenv]].
    - by apply or_null_js_or_option.
    - by apply or_null_js_or_env. }
  rewrite Hresolved in Hconn. simpl in Hconn.
  rewrite !truthy_Some_string in Hconn by done. simpl in Hconn.
  injection Hconn as <-. by rewrite Hname.
Qed.

(** X12.  Which error construction throws, the errors of the SDK being
    its own: the missing-credentials error exactly when no credential is
    available, whether or not a container name is given; the
    missing-container-name error exactly when a credential is available and
    the container name is absent or empty. *)
Theorem constructor_error sdk options env :
  foreign_errors sdk ->
  (constructor sdk options env = inl MISSING_CREDENTIALS
   <-> credential_available options env = false)
  /\ (constructor sdk options env = inl MISSING_CONTAINER_NAME
      <-> credential_available options env = true
          /\ container_name_supplied options = false).
Proof.
  intros Hforeign.
  pose proof (resolveConnection_None options env) as Hconn.
  unfold constructor, container_name_supplied.
  destruct (resolveConnection options env) as [conn|].
  - assert (credential_available options env = true) as ->.
    { destruct (credential_available options env); [done|].
      by destruct Hconn as [_ Hconn]; specialize (Hconn eq_refl). }
    destruct (containerName options) as [name|]; simpl.
    + change (truthy (Some name)) with (truthy name).
      destruct (truthy name); simpl.
      * destruct (sdk _) as [e|] eqn:Hsdk.
        -- split; split; try discriminate; try (by intros [_ ?]).
           ++ intros [= ->]. destruct (Hforeign _ _ Hsdk). by left.
           ++ intros [= ->]. destruct (Hforeign _ _ Hsdk). by right.
        -- split; split; try discriminate. by intros [_ ?].
      * split; split; try discriminate; done.
    + split; split; try discriminate; done.
  - assert (credential_available options env = false) as -> by by apply Hconn.
    split; split; try discriminate; try done. by intros [? _].
Qed.

(** ** The callbacks *)

Section Callbacks.
Context {W : Type} (handler : forall R, Call R -> W -> (JsError + R) * W).

(** X16.  [_handleFile] calls the callback with the descriptor when the
    store returns and with the error of the store, unchanged, when it
    fails; it calls it once, except that a callback that throws when handed
    the descriptor is called a second time, with what it threw. *)
Theorem _handleFile_callback self req file
    (cb : HandleFileCallback -> W -> (JsError + unit) * W) w :
  (_handleFile handler self req file cb w).2
  = match outcome handler (_handleFileAsync self req file) w with
    | inl e => [HandleFileError e]
    | inr out =>
        match (cb (HandleFileInfo out)
                 (world_after handler (_handleFileAsync self req file) w)).1 with
        | inr _ => [HandleFileInfo out]
        | inl e => [HandleFileInfo out; HandleFileError e]
        end
    end.
Proof.
  unfold _handleFile, promise, outcome, world_after, invoke.
  destruct (run handler (_handleFileAsync self req file) w) as [[[e|out] w1] t]; simpl.
  - by destruct (cb (HandleFileError e) w1).
  - destruct (cb (HandleFileInfo out) w1) as [[e|[]] w2]; simpl; [|done].
    by destruct (cb (HandleFileError e) w2).
Qed.

(** X17.  [_removeFile] calls the callback without an error when the
    removal returns and with the error of the removal, unchanged, when it
    fails; it calls it once, except that a callback that throws when told
    of the success is called a second time, with what it threw. *)
Theorem _removeFile_callback self req file
    (cb : RemoveFileCallback -> W -> (JsError + unit) * W) w :
  (_removeFile handler self req file cb w).2
  = match outcome handler (_removeFileAsync self req file) w with
    | inl e => [RemoveFileError e]
    | inr _ =>
        match (cb RemoveFileDone
                 (world_after handler (_removeFileAsync self req file) w)).1 with
        | inr _ => [RemoveFileDone]
        | inl e => [RemoveFileDone; RemoveFileError e]
        end
    end.
Proof.
  unfold _removeFile, promise, outcome, world_after, invoke.
  destruct (run handler (_removeFileAsync self req file) w) as [[[e|[]] w1] t]; simpl.
  - by destruct (cb (RemoveFileError e) w1).
  - destruct (cb RemoveFileDone w1) as [[e|[]] w2]; simpl; [|done].
    by destruct (cb (RemoveFileError e) w2).
Qed.

End Callbacks.

(** ** Store and removal against the in-memory service *)

Lemma run_replay {E W A} (handler : forall R, E R -> W -> (JsError + R) * W)
    (p : Prog E A) w :
  world_after handler p w = replay handler (trace handler p w) w
  /\ forall pre ev post,
       trace handler p w = pre ++ ev :: post ->
       answered handler ev (replay handler pre w).
Proof.
  unfold world_after, trace, replay. revert w.
  induction p as [a|e|R c k IH]; intros w; simpl.
  - split; [done|]. intros [|] ???; discriminate.
  - split; [done|]. intros [|] ???; discriminate.
  - destruct (handler R c w) as [[e|x] w1] eqn:Hh; simpl.
    + split; [by rewrite Hh|].
      intros [|ev' pre] ev post Heq; simpl in Heq.
      * injection Heq as <- _. simpl. by rewrite Hh.
      * injection Heq as _ Heq. by destruct pre.
    + specialize (IH x w1).
      destruct (run handler (k x) w1) as [[o w2] t]; simpl in *.
      destruct IH as [IHw IHa]. rewrite Hh. simpl. split; [done|].
      intros [|ev' pre] ev post Heq; simpl in Heq.
      * injection Heq as <- _. simpl. by rewrite Hh.
      * injection Heq as <- Heq. simpl. rewrite Hh. simpl. by eapply IHa.
Qed.

Lemma replay_app {E W} (handler : forall R, E R -> W -> (JsError + R) * W)
    (t1 t2 : list (Event E)) w :
  replay handler (t1 ++ t2) w = replay handler t2 (replay handler t1 w).
Proof. apply foldl_app. Qed.

Lemma replay_cons {E W} (handler : forall R, E R -> W -> (JsError + R) * W)
    {R} (c : E R) r (t : list (Event E)) w :
  replay handler (Ev c r :: t) w = replay handler t (handler _ c w).2.
Proof. reflexivity. Qed.

Lemma replay_awaited_containers (t : list (Event RuntimeCall)) w :
  containers (replay service (awaited <$> t) w) = containers w.
Proof.
  revert w. induction t as [|[R c r] t IH]; intros w; [done|].
  rewrite fmap_cons. simpl awaited. rewrite replay_cons, IH.
  destruct c; simpl; [done| |done]. by destruct (uuids w).
Qed.

Lemma replay_ResolvedNames_containers self req file t c b w :
  ResolvedNames self req file t c b ->
  containers (replay service t w) = containers w.
Proof.
  intros (tc & tb & -> & _). by rewrite replay_app, !replay_awaited_containers.
Qed.

Lemma replay_Resolved_containers self req file t c b settings metadata w :
  Resolved self req file t c b settings metadata ->
  containers (replay service t w) = containers w.
Proof.
  intros (tn & ts & tm & -> & Hn & _).
  by rewrite !replay_app, !replay_awaited_containers,
    (replay_ResolvedNames_containers _ _ _ _ _ _ _ Hn).
Qed.

Lemma replay_Expiry self t expiresOn w :
  Expiry self t expiresOn -> replay service t w = w.
Proof.
  unfold Expiry. destruct (_urlExpirationTime self) as [minutes|].
  - destruct (truthy minutes).
    + by intros (now & -> & _).
    + by intros [-> _].
  - by intros [-> _].
Qed.


Lemma remove_in_existing_container self req file c b w container :
  _containerName self req file = Ret c ->
  _blobName self req file = Ret b ->
  containers w !! c = Some container ->
  outcome service (_removeFileAsync self req file) w = inr tt
  /\ world_after service (_removeFileAsync self req file) w
     = put_container c
         {| publicAccess := publicAccess container;
            blobs := base.delete b (blobs container) |} w.
Proof.
  intros Hc Hb Hcontainer. unfold outcome, world_after, _removeFileAsync.
  rewrite Hc, Hb. simpl. unfold _getContainerClient.
  destruct (_autoCreateContainer self); simpl; unfold container_of; simpl;
    by rewrite !Hcontainer.
Qed.

(** X18.  Against the in-memory service, on an adapter whose name resolvers
    return [c] and [b] for a request and a file without consulting the
    runtime: after a store that returns, the blob [b] of the container [c]
    holds the bytes of the stream of the file; a removal for the same
    request and file then returns, and after it the container [c] is still
    there and has no blob [b]. *)
Theorem store_then_remove self req file c b w out :
  _containerName self req file = Ret c ->
  _blobName self req file = Ret b ->
  outcome service (_handleFileAsync self req file) w = inr out ->
  let w' := world_after service (_handleFileAsync self req file) w in
  (exists blob, blob_at w' c b = Some blob /\ content blob = stream file)
  /\ outcome service (_removeFileAsync self req file) w' = inr tt
  /\ (exists container,
         containers (world_after service (_removeFileAsync self req file) w') !! c
         = Some container)
  /\ blob_at (world_after service (_removeFileAsync self req file) w') c b = None.
Proof.
  intros Hc Hb Ho w'.
  destruct (run_replay service (_handleFileAsync self req file) w) as [Hworld Hanswers].
  apply store_returns_sound in Ho
    as (c' & b' & settings & metadata & h & blobProperties & te & expiresOn & sasUrl
        & (t & (tn & ts & tm & _ & (tc & tb & _ & Hc' & Hb') & _) & _)
        & Hexpiry & Ht & _).
  rewrite Hc in Hc'. rewrite Hb in Hb'.
  destruct Hc' as [_ <-]. destruct Hb' as [_ <-].
  specialize (Hanswers _ _ _ Ht). simpl in Hanswers. unfold container_of in Hanswers.
  simpl in Hanswers.
  destruct (containers (replay service h w) !! c) as [container|] eqn:Hcontainer;
    [|discriminate].
  assert (containers w' !! c
          = Some {| publicAccess := publicAccess container;
                    blobs := <[b := {| content := stream file;
                                       headers := headers_of settings;
                                       blob_metadata := metadata |}]>
                               (blobs container) |}) as Hstored.
  { unfold w'. rewrite Hworld, Ht, !replay_app, (replay_Expiry _ _ _ _ Hexpiry).
    set (wh := replay service h w) in *. clearbody wh. clear Hexpiry.
    destruct expiresOn as [[[|?|?]]|];
      unfold replay; simpl; unfold container_of; simpl; rewrite Hcontainer; simpl;
      rewrite lookup_insert_eq; simpl; rewrite lookup_insert_eq; simpl;
      apply lookup_insert_eq. }
  split; [|split; [|split]].
  - eexists. unfold blob_at. rewrite Hstored. simpl.
    split; [apply lookup_insert_eq|done].
  - by destruct (remove_in_existing_container self req file c b w' _ Hc Hb Hstored).
  - destruct (remove_in_existing_container self req file c b w' _ Hc Hb Hstored)
      as [_ ->].
    eexists. simpl. apply lookup_insert_eq.
  - destruct (remove_in_existing_container self req file c b w' _ Hc Hb Hstored)
      as [_ ->].
    unfold blob_at. simpl. rewrite lookup_insert_eq. simpl.
    apply lookup_delete_eq.
Qed.

(** ** Defaults, and resolution before service *)

Section Defaults.
Context {W : Type} (handler : forall R, Call R -> W -> (JsError + R) * W).

(** X19.  On an adapter constructed with neither [autoCreateContainer] nor
    [containerAccessLevel], a store that returns has made exactly one
    container creation, for the resolved container name and without public
    access. *)
Theorem store_default_creation sdk options env self req file w out :
  constructor sdk options env = inr self ->
  autoCreateContainer options = None ->
  containerAccessLevel options = None ->
  outcome handler (_handleFileAsync self req file) w = inr out ->
  exists containerName,
    out !! "containerName" = Some (VString containerName)
    /\ creations (trace handler (_handleFileAsync self req file) w)
       = [(Azure.getContainerClient (_blobServiceClient self) containerName,
           {| Azure.access := None |})].
Proof.
  intros Hself Hauto Hlevel Ho.
  apply constructor_fields in Hself as (Hl & _ & _ & _ & _ & Ha).
  rewrite Hauto in Ha. rewrite Hlevel in Hl. simpl in Ha, Hl.
  apply store_returns_sound in Ho
    as (c & b & settings & metadata & h & blobProperties & te & expiresOn & sasUrl
        & (t & Hresolved & ->) & Hexpiry & -> & ->).
  exists c. split; [unfold descriptor; by simplify_map_eq|].
  unfold creations, creation_events, publicAccessLevel. rewrite Ha, Hl.
  cbv zeta. rewrite !omap_app. simpl.
  assert (omap creation_of t = []) as ->.
  { destruct Hresolved as (tn & ts & tm & -> & (tc & tb & -> & _) & _).
    rewrite !omap_app.
    assert (forall l : list (Event RuntimeCall), omap creation_of (awaited <$> l) = [])
      as Hnone by (intros l; induction l as [|[]]; done).
    by rewrite !Hnone. }
  assert (omap creation_of te = []) as ->; [|done].
  unfold Expiry in Hexpiry. destruct (_urlExpirationTime self) as [minutes|].
  - destruct (truthy minutes).
    + by destruct Hexpiry as (now & -> & _).
    + by destruct Hexpiry as [-> _].
  - by destruct Hexpiry as [-> _].
Qed.

(** X20.  A store calls the SDK only after the container name, the blob
    name, the content settings and the metadata have all been resolved, and
    a removal only after the two names have: when a resolver rejects,
    nothing has been asked of the service. *)
Theorem resolution_precedes_service self req file w :
  (forall pre R (call : Azure.SdkCall R) r post,
      trace handler (_handleFileAsync self req file) w
        = pre ++ Ev (Sdk call) r :: post ->
      exists t rest containerName blobName settings metadata,
        pre = t ++ rest
        /\ sdk_calls t = []
        /\ Resolved self req file t containerName blobName settings metadata)
  /\ (forall pre R (call : Azure.SdkCall R) r post,
         trace handler (_removeFileAsync self req file) w
           = pre ++ Ev (Sdk call) r :: post ->
         exists t rest containerName blobName,
           pre = t ++ rest
           /\ sdk_calls t = []
           /\ ResolvedNames self req file t containerName blobName).
Proof.
  split.
  - intros pre R call r post Ht. apply store_protocol_sound in Ht.
    destruct Ht as (c & b & settings & metadata & Ht). destruct call.
    + destruct Ht as (_ & _ & _ & Hresolved).
      exists pre, [], c, b, settings, metadata. rewrite app_nil_r.
      split_and!; [done| |done]. by eapply Resolved_not_sdk.
    + destruct Ht as (_ & _ & _ & _ & _ & (t & Hresolved & ->)).
      exists t, (creation_events self c), c, b, settings, metadata.
      split_and!; [done| |done]. by eapply Resolved_not_sdk.
    + destruct Ht as (_ & h' & (t & Hresolved & ->) & ->).
      eexists t, _, c, b, settings, metadata.
      split_and!; [by rewrite <- (assoc_L (++))| |done]. by eapply Resolved_not_sdk.
    + destruct Ht as (_ & h' & props & te & (t & Hresolved & ->) & _ & _ & ->).
      eexists t, _, c, b, settings, metadata.
      split_and!; [by rewrite <- (assoc_L (++))| |done]. by eapply Resolved_not_sdk.
    + done.
  - intros pre R call r post Ht. apply remove_protocol_sound in Ht.
    destruct Ht as (c & b & Ht). destruct call; try done.
    + destruct Ht as (_ & _ & _ & Hnames).
      exists pre, [], c, b. rewrite app_nil_r.
      split_and!; [done| |done]. by eapply ResolvedNames_not_sdk.
    + destruct Ht as (_ & t & Hnames & ->).
      exists t, (creation_events self c), c, b.
      split_and!; [done| |done]. by eapply ResolvedNames_not_sdk.
Qed.

End Defaults.

(** ** The further properties at work *)

Example constructor_static_options :
  constructor client_factory static_options ∅ = inr static_adapter.
Proof. reflexivity. Qed.

Lemma store_sdk_calls_witness :
  outcome service dev_store w0
  = inr (descriptor photo "uploads" dev_blob_name dev_sas_url dev_properties)
  /\ exists containerName blobName uploadOptions blobProperties sasOptions sasUrl,
       let client := blob_client dev_adapter containerName blobName in
       sdk_calls (trace service dev_store w0)
       = creation_events dev_adapter containerName
         ++ [Ev (Sdk (Azure.uploadStream client (stream photo) None None uploadOptions))
               (inr tt);
             Ev (Sdk (Azure.getProperties client)) (inr blobProperties);
             Ev (Sdk (Azure.generateSasUrl client sasOptions)) (inr sasUrl)]
       /\ descriptor photo "uploads" dev_blob_name dev_sas_url dev_properties
          = descriptor photo containerName blobName sasUrl blobProperties.
Proof.
  assert (outcome service dev_store w0
          = inr (descriptor photo "uploads" dev_blob_name dev_sas_url dev_properties))
    as Hout by (vm_cast_no_check (eq_refl (outcome service dev_store w0))).
  split; [exact Hout|].
  exact (store_sdk_calls service dev_adapter request photo w0 _ Hout).
Defined.

Lemma store_upload_arguments_witness :
  let t := trace service dev_store w0 in
  t = take 4 t ++ Ev (Sdk (Azure.uploadStream dev_blob (stream photo) None None
                             dev_upload_options)) (inr tt) :: drop 5 t
  /\ exists containerName blobName settings metadata,
       upload_history dev_adapter request photo (take 4 t)
         containerName blobName settings metadata
       /\ dev_blob = blob_client dev_adapter containerName blobName
       /\ Azure.blobHTTPHeaders dev_upload_options = headers_of settings
       /\ Azure.metadata dev_upload_options = metadata.
Proof.
  assert (trace service dev_store w0
          = take 4 (trace service dev_store w0)
            ++ Ev (Sdk (Azure.uploadStream dev_blob (stream photo) None None
                          dev_upload_options)) (inr tt)
                 :: drop 5 (trace service dev_store w0)) as Ht
    by (vm_compute; reflexivity).
  split; [exact Ht|].
  destruct (store_upload_arguments service dev_adapter request photo w0 _ _ _ _ _ _ _ _ Ht)
    as (_ & _ & _ & Harguments).
  exact Harguments.
Defined.

Lemma store_static_options_witness :
  (static_blob, static_upload_options)
    ∈ uploads (trace service (_handleFileAsync static_adapter request photo) w0)
  /\ Azure.containerName (Azure.containerClient static_blob) = "uploads"
  /\ Azure.blobHTTPHeaders static_upload_options
     = {| Azure.blobCacheControl := Some "max-age=3600";
          Azure.blobContentType := Some "image/webp";
          Azure.blobContentMD5 := None;
          Azure.blobContentEncoding := None;
          Azure.blobContentLanguage := None;
          Azure.blobContentDisposition := None |}
  /\ Azure.metadata static_upload_options = Some {[ "owner" := "alice" ]}.
Proof.
  assert ((static_blob, static_upload_options)
            ∈ uploads (trace service (_handleFileAsync static_adapter request photo) w0))
    as Hin by (vm_compute; left).
  split; [exact Hin|].
  destruct (store_static_options service client_factory static_options ∅ static_adapter
              request photo w0 static_blob static_upload_options eq_refl Hin)
    as (Hcontainer & Hsettings & Hmetadata).
  split; [|split].
  - exact (Hcontainer "uploads" eq_refl).
  - exact (Hsettings _ eq_refl).
  - exact (Hmetadata _ eq_refl).
Defined.

(** An empty metadata map is uploaded as an empty map. *)
Example store_empty_metadata :
  (fun u => Azure.metadata u.2)
    <$> uploads (trace service
                   (_handleFileAsync (adapter_of empty_metadata_options) request photo)
                   w0)
  = [Some ∅].
Proof. vm_compute. reflexivity. Qed.

Lemma no_creation_when_disabled_witness :
  creations (trace service (_handleFileAsync no_create_adapter request photo) w1) = []
  /\ creations (trace service (_removeFileAsync no_create_adapter request photo) w1) = [].
Proof.
  exact (no_creation_when_disabled service client_factory no_create_options ∅
           no_create_adapter request photo w1 eq_refl eq_refl).
Defined.

Lemma signed_url_read_only_witness :
  (dev_blob, dev_sas_options) ∈ signings (trace service dev_store w0)
  /\ Azure.permissions dev_sas_options
     = {| Azure.read := true; Azure.write := false; Azure.delete := false |}.
Proof.
  assert ((dev_blob, dev_sas_options) ∈ signings (trace service dev_store w0)) as Hin
    by (vm_compute; left).
  split; [exact Hin|].
  exact (signed_url_read_only service dev_adapter request photo w0 _ _ Hin).
Defined.

Lemma signed_url_expiry_NaN_witness :
  (dev_blob, nan_sas_options)
    ∈ signings (trace service (_handleFileAsync nan_adapter request photo) w0)
  /\ Azure.expiresOn nan_sas_options = None.
Proof.
  assert ((dev_blob, nan_sas_options)
            ∈ signings (trace service (_handleFileAsync nan_adapter request photo) w0))
    as Hin by (vm_compute; left).
  split; [exact Hin|].
  exact (signed_url_expiry_NaN service client_factory nan_options ∅ nan_adapter request
           photo w0 _ _ eq_refl eq_refl Hin).
Defined.

Lemma constructor_expiration_witness :
  _urlExpirationTime (adapter_of (dev_options_with (Some (IsNumber (Num 15))) None))
  = Some (Num 15)
  /\ _urlExpirationTime (adapter_of (dev_options_with (Some (IsNumber (Num (-5)))) None))
     = Some (Num 60)
  /\ _urlExpirationTime (adapter_of (dev_options_with (Some IsFalse) None)) = None
  /\ _urlExpirationTime (adapter_of dev_options) = Some (Num 60).
Proof.
  split; [|split; [|split]].
  - destruct (constructor_expiration client_factory
                (dev_options_with (Some (IsNumber (Num 15))) None) ∅
                (adapter_of (dev_options_with (Some (IsNumber (Num 15))) None)) eq_refl)
      as (_ & _ & _ & _ & Hpositive & _).
    apply (Hpositive 15); [reflexivity|lia].
  - destruct (constructor_expiration client_factory
                (dev_options_with (Some (IsNumber (Num (-5)))) None) ∅
                (adapter_of (dev_options_with (Some (IsNumber (Num (-5)))) None)) eq_refl)
      as (_ & _ & Hnegative & _).
    apply (Hnegative (-5)); [reflexivity|lia].
  - destruct (constructor_expiration client_factory
                (dev_options_with (Some IsFalse) None) ∅
                (adapter_of (dev_options_with (Some IsFalse) None)) eq_refl)
      as ([_ Hfalse] & _).
    apply Hfalse. reflexivity.
  - destruct (constructor_expiration client_factory dev_options ∅
                (adapter_of dev_options) eq_refl) as (_ & Hunset & _).
    apply Hunset. reflexivity.
Defined.

Lemma constructor_connection_string_witness :
  _blobServiceClient (adapter_in all_credentials_options full_env)
  = Azure.fromConnectionString "UseDevelopmentStorage=true".
Proof.
  destruct (constructor_connection_string client_factory all_credentials_options
              full_env (adapter_in all_credentials_options full_env) eq_refl)
    as [Hoption _].
  apply (Hoption "UseDevelopmentStorage=true" eq_refl). discriminate.
Defined.

(** The connection string of the environment, when the options hold none,
    wins over the account name and access key of the options. *)
Example constructor_connection_string_env :
  _blobServiceClient (adapter_in key_and_account_options full_env)
  = Azure.fromConnectionString
      "BlobEndpoint=https://env.example;SharedAccessSignature=sv".
Proof. reflexivity. Qed.

Lemma constructor_shared_key_witness :
  _blobServiceClient (adapter_of key_and_account_options)
  = Azure.new "https://acct.blob.core.windows.net"
      {| Azure.accountName := "acct"; Azure.accountKey := "a2V5" |}.
Proof.
  assert (constructor client_factory key_and_account_options ∅
          = inr (adapter_of key_and_account_options)) as Hself by reflexivity.
  apply (constructor_shared_key client_factory key_and_account_options ∅
           (adapter_of key_and_account_options) "acct" "a2V5" Hself);
    [reflexivity|reflexivity|discriminate|left; reflexivity|discriminate].
Defined.

Lemma constructor_error_witness :
  constructor client_factory key_only_options ∅ = inl MISSING_CREDENTIALS
  /\ constructor client_factory empty_container_name_options ∅
     = inl MISSING_CONTAINER_NAME
  /\ constructor client_factory garbage_options ∅ <> inl MISSING_CREDENTIALS
  /\ constructor client_factory garbage_options ∅ <> inl MISSING_CONTAINER_NAME.
Proof.
  split; [|split; [|split]].
  - destruct (constructor_error client_factory key_only_options ∅ client_factory_foreign)
      as [[_ Hcredentials] _].
    apply Hcredentials. reflexivity.
  - destruct (constructor_error client_factory empty_container_name_options ∅
                client_factory_foreign) as [_ [_ Hname]].
    apply Hname. split; reflexivity.
  - destruct (constructor_error client_factory garbage_options ∅ client_factory_foreign)
      as [[Hcredentials _] _].
    intros Hthrown. apply Hcredentials in Hthrown. discriminate Hthrown.
  - destruct (constructor_error client_factory garbage_options ∅ client_factory_foreign)
      as [_ [Hname _]].
    intros Hthrown. apply Hname in Hthrown as [_ Hsupplied]. discriminate Hsupplied.
Defined.

Lemma container_creation_access_witness :
  let self := adapter_of private_options in
  outcome service (_handleFileAsync self request photo) w0
  = inr (descriptor photo "uploads" dev_blob_name dev_sas_url dev_properties)
  /\ creations (trace service (_handleFileAsync self request photo) w0)
     = [(dev_container, {| Azure.access := None |})]
  /\ outcome service (_removeFileAsync self request photo) w0 = inr tt
  /\ (exists containerName blobName,
         deletions (trace service (_removeFileAsync self request photo) w0)
         = [blob_client self containerName blobName]
         /\ creations (trace service (_removeFileAsync self request photo) w0)
            = [(Azure.getContainerClient (_blobServiceClient self) containerName,
                {| Azure.access := None |})]).
Proof.
  intros self.
  destruct (container_creation_access client_factory private_options ∅ self
              eq_refl (or_intror eq_refl)) as (_ & Hstore & Hremove & _).
  assert (outcome service (_handleFileAsync self request photo) w0
          = inr (descriptor photo "uploads" dev_blob_name dev_sas_url dev_properties))
    as Hout
    by (vm_cast_no_check
          (eq_refl (outcome service (_handleFileAsync self request photo) w0))).
  assert (outcome service (_removeFileAsync self request photo) w0 = inr tt)
    as Hremoved by reflexivity.
  split; [exact Hout|]. split.
  - destruct (Hstore World service w0 request photo _ Hout) as (c & Hc & Hcreations).
    assert (descriptor photo "uploads" dev_blob_name dev_sas_url dev_properties
              !! "containerName" = Some (VString "uploads")) as Hname by reflexivity.
    rewrite Hname in Hc. injection Hc as <-. exact Hcreations.
  - split; [exact Hremoved|].
    exact (Hremove World service w0 request photo Hremoved).
Defined.

Lemma remove_sdk_calls_witness :
  outcome service dev_remove w0 = inr tt
  /\ exists containerName blobName tn,
       ResolvedNames dev_adapter request photo tn containerName blobName
       /\ trace service dev_remove w0
          = tn ++ creation_events dev_adapter containerName
               ++ [Ev (Sdk (Azure.deleteIfExists
                              (blob_client dev_adapter containerName blobName)))
                     (inr tt)]
       /\ sdk_calls (trace service dev_remove w0)
          = creation_events dev_adapter containerName
            ++ [Ev (Sdk (Azure.deleteIfExists
                           (blob_client dev_adapter containerName blobName)))
                  (inr tt)].
Proof.
  assert (outcome service dev_remove w0 = inr tt) as Hout by reflexivity.
  split; [exact Hout|].
  exact (remove_sdk_calls service dev_adapter request photo w0 Hout).
Defined.

Lemma remove_default_blob_name_witness :
  let t := trace service dev_remove w0 in
  t = take 4 t ++ Ev (Sdk (Azure.deleteIfExists dev_blob)) (inr tt) :: drop 5 t
  /\ exists t' now uuid ext,
       take 4 t
       = t' ++ [Ev (Runtime DateNow) (inr now);
                Ev (Runtime UuidV4) (inr uuid);
                Ev (Runtime (Extname (originalname photo))) (inr ext)]
            ++ creation_events dev_adapter
                 (Azure.containerName (Azure.containerClient dev_blob))
       /\ Azure.name dev_blob = pretty now +:+ "-" +:+ uuid +:+ ext.
Proof.
  assert (trace service dev_remove w0
          = take 4 (trace service dev_remove w0)
            ++ Ev (Sdk (Azure.deleteIfExists dev_blob)) (inr tt)
                 :: drop 5 (trace service dev_remove w0)) as Ht
    by (vm_compute; reflexivity).
  split; [exact Ht|].
  exact (remove_default_blob_name service client_factory dev_options ∅ dev_adapter
           request photo w0 _ _ _ _ eq_refl eq_refl Ht).
Defined.

(** After a store under the default blob name, a removal for the same file
    does not delete the stored blob when the UUID it draws is another. *)
Example remove_default_blob_name_leaves_blob :
  let stored := world_after service dev_store w0 in
  is_Some (blob_at stored "uploads" dev_blob_name)
  /\ outcome service dev_remove stored = inr tt
  /\ is_Some (blob_at (world_after service dev_remove stored) "uploads" dev_blob_name).
Proof. vm_compute. split_and!; eauto. Qed.

(** When the clock and the UUID answer to the removal as they did to the
    store, the removal does delete the stored blob. *)
Example remove_default_blob_name_same_answers :
  let w := {| clock := 1700000000000;
              uuids := ["9b1deb4d-3b7d-4bad-9bdd-2b0d7b3dcb6d";
                        "9b1deb4d-3b7d-4bad-9bdd-2b0d7b3dcb6d"];
              containers := ∅ |} in
  let stored := world_after service dev_store w in
  is_Some (blob_at stored "uploads" dev_blob_name)
  /\ outcome service dev_remove stored = inr tt
  /\ blob_at (world_after service dev_remove stored) "uploads" dev_blob_name = None.
Proof. vm_compute. split_and!; eauto. Qed.

Lemma store_and_remove_same_blob_witness :
  (forall client uploadOptions,
      (client, uploadOptions)
        ∈ uploads (trace service (_handleFileAsync static_adapter request photo) w0) ->
      client = blob_client static_adapter "uploads" "photo.png")
  /\ (forall client,
         client ∈ deletions (trace service (_removeFileAsync static_adapter request photo)
                               w1) ->
         client = blob_client static_adapter "uploads" "photo.png").
Proof.
  exact (store_and_remove_same_blob service static_adapter request photo
           "uploads" "photo.png" w0 w1 eq_refl eq_refl).
Defined.

Lemma store_then_remove_witness :
  let store := _handleFileAsync static_adapter request photo in
  let remove := _removeFileAsync static_adapter request photo in
  let w' := world_after service store w0 in
  outcome service store w0 = inr static_descriptor
  /\ (exists blob, blob_at w' "uploads" "photo.png" = Some blob
                   /\ content blob = stream photo)
  /\ outcome service remove w' = inr tt
  /\ (exists container,
         containers (world_after service remove w') !! "uploads" = Some container)
  /\ blob_at (world_after service remove w') "uploads" "photo.png" = None.
Proof.
  assert (outcome service (_handleFileAsync static_adapter request photo) w0
          = inr static_descriptor) as Hout
    by (vm_cast_no_check
          (eq_refl (outcome service (_handleFileAsync static_adapter request photo) w0))).
  split; [exact Hout|].
  exact (store_then_remove static_adapter request photo "uploads" "photo.png" w0 _
           eq_refl eq_refl Hout).
Defined.

Lemma store_default_creation_witness :
  outcome service dev_store w0
  = inr (descriptor photo "uploads" dev_blob_name dev_sas_url dev_properties)
  /\ exists containerName,
       descriptor photo "uploads" dev_blob_name dev_sas_url dev_properties
         !! "containerName" = Some (VString containerName)
       /\ creations (trace service dev_store w0)
          = [(Azure.getContainerClient (_blobServiceClient dev_adapter) containerName,
              {| Azure.access := None |})].
Proof.
  assert (outcome service dev_store w0
          = inr (descriptor photo "uploads" dev_blob_name dev_sas_url dev_properties))
    as Hout by (vm_cast_no_check (eq_refl (outcome service dev_store w0))).
  split; [exact Hout|].
  exact (store_default_creation service client_factory dev_options ∅ dev_adapter
           request photo w0 _ eq_refl eq_refl eq_refl Hout).
Defined.

(** A rejecting metadata resolver: nothing is asked of the service, and the
    callback of [_handleFile] is handed the rejection. *)
Example rejecting_metadata_resolver :
  let options :=
    {| accessKey := None; accountName := None;
       connectionString := Some "UseDevelopmentStorage=true";
       urlExpirationTime := None; blobName := None;
       containerName := Some (Static "uploads");
       autoCreateContainer := None;
       metadata := Some (Resolver (fun _ _ => Throw (Error "no metadata")));
       contentSettings := None; containerAccessLevel := None |} in
  sdk_calls (trace service (_handleFileAsync (adapter_of options) request photo) w0) = []
  /\ (_handleFile service (adapter_of options) request photo accepting w0).2
     = [HandleFileError (Error "no metadata")].
Proof. split; reflexivity. Qed.

(** A callback that throws when handed the descriptor is called again. *)
Example throwing_callback_called_twice :
  (_handleFile service dev_adapter request photo throwing_on_info w0).2
  = [HandleFileInfo (descriptor photo "uploads" dev_blob_name dev_sas_url dev_properties);
     HandleFileError (Error "callback failed")].
Proof.
  vm_cast_no_check
    (eq_refl (_handleFile service dev_adapter request photo throwing_on_info w0).2).
Qed.
